(** * Shape inference of the ragged conversion operators

    A shallow embedding of [tensorflow/core/ops/ragged_conversion_ops.cc]:
    the three registered operators [RaggedTensorToSparse],
    [RaggedTensorToVariant] and [RaggedTensorFromVariant], and their shape
    functions.  The shape functions are written in a small state-and-error
    monad over the inference context, one bind per [TF_RETURN_IF_ERROR].

    The methods of [shape_inference::InferenceContext] are declared in
    [tensorflow/core/framework/shape_inference.h], outside the file embedded
    here; they are modelled from the collaborator contract of the
    specification and marked as such. *)

From Stdlib Require Import ZArith Lia.
From stdpp Require Import base option list gmap strings.

Local Open Scope Z_scope.

(** ** Machine integers *)

(** [int64] values are integers of [Z]; addition and subtraction are written
    with their two's-complement wrap-around. *)
Module Int64.

Definition min_value : Z := - 2 ^ 63.
Definition max_value : Z := 2 ^ 63 - 1.

Definition in_range (z : Z) : Prop := min_value <= z <= max_value.

Definition wrap (z : Z) : Z := (z + 2 ^ 63) mod 2 ^ 64 - 2 ^ 63.

Definition add (a b : Z) : Z := wrap (a + b).
Definition sub (a b : Z) : Z := wrap (a - b).

End Int64.

(** ** Data model *)

(** Modelled from the spec: [DimensionHandle] (declared in
    shape_inference.h).  A possibly-unknown non-negative size.  Two unknown
    dimensions are never assumed equal, so a handle carries the identity it
    was allocated with next to its value. *)
Record DimensionHandle : Type := Dimension
  { dim_id : nat;
    dim_value : option Z }.

(** Modelled from the spec: [ShapeHandle] (declared in shape_inference.h).
    A rank, known or unknown, and when known the ordered dimensions. *)
Inductive ShapeHandle : Type :=
  | UnknownRank
  | KnownRank (dims : list DimensionHandle).

#[global] Instance DimensionHandle_eq_dec : EqDecision DimensionHandle.
Proof. solve_decision. Defined.

#[global] Instance ShapeHandle_eq_dec : EqDecision ShapeHandle.
Proof. solve_decision. Defined.

(** Attribute values of a node: integers, booleans and element-type tags. *)
Inductive AttrValue : Type :=
  | AttrInt (i : Z)
  | AttrBool (b : bool)
  | AttrType (tag : string).

(** ** Errors *)

Module errors.

Inductive Message : Type :=
  | Text (s : string)
  | AttrNotFound (name : string)
  | AttrWrongType (name : string)
  | RankMustBe (expected actual : Z)
  | RankMustBeAtLeast (expected actual : Z)
  | RankNegative (expected : Z)
  | NegativeDimension (first second : Z).

Inductive Error : Type :=
  | InvalidArgument (msg : Message)
  | NotFound (msg : Message).

End errors.
Import errors.

(** What a call yields: a value, an error [Status], or nothing the language
    defines (an index outside a vector). *)
Inductive Outcome (A : Type) : Type :=
  | OK (a : A)
  | Failed (e : Error)
  | Undefined.
Arguments OK {A} a.
Arguments Failed {A} e.
Arguments Undefined {A}.

(** ** The inference context *)

(** Modelled from the spec: [InferenceContext] (declared in
    shape_inference.h).  The node's attributes, the shapes of its inputs, the
    calls of [set_output] made so far (oldest first) and the counter from
    which dimensions are allocated. *)
Record InferenceContext : Type := Context
  { attrs : gmap string AttrValue;
    inputs : list ShapeHandle;
    outputs : list (Z * ShapeHandle);
    next_dim : nat }.

Definition Infer (A : Type) : Type :=
  InferenceContext -> Outcome A * InferenceContext.

Definition ret {A : Type} (a : A) : Infer A := fun c => (OK a, c).

Definition fail {A : Type} (e : Error) : Infer A := fun c => (Failed e, c).

Definition undefined {A : Type} : Infer A := fun c => (Undefined, c).

Definition bind {A B : Type} (m : Infer A) (k : A -> Infer B) : Infer B :=
  fun c =>
    match m c with
    | (OK a, c') => k a c'
    | (Failed e, c') => (Failed e, c')
    | (Undefined, c') => (Undefined, c')
    end.

Notation "x <- m ;; k" := (bind m (fun x => k))
  (at level 100, m at next level, right associativity).
Notation "m ;;; k" := (bind m (fun _ => k))
  (at level 100, right associativity).

(** A [for (int64 i = lo; ...; ++i)] loop of [n] rounds.  The counter stays
    below its bound, so [++i] never wraps.  What a round yields is dropped
    when the round ends. *)
Fixpoint for_range {A : Type} (n : nat) (i : Z) (body : Z -> Infer A) : Infer unit :=
  match n with
  | O => ret tt
  | S n' => body i ;;; for_range n' (i + 1) body
  end.

(** ** Methods of the context *)

(** Modelled from the spec: [InferenceContext::input] (shape_inference.h).
    [input(i)] is the shape of the i-th input; the vector is indexed without
    a bounds check. *)
Definition input (i : Z) : Infer ShapeHandle := fun c =>
  if bool_decide (0 <= i) then
    match inputs c !! Z.to_nat i with
    | Some s => (OK s, c)
    | None => (Undefined, c)
    end
  else (Undefined, c).

(** Modelled from the spec: [InferenceContext::GetAttr<int64>]
    (shape_inference.h).  Reads a required attribute; fails if it is absent
    or has another type. *)
Definition GetAttr_int64 (name : string) : Infer Z := fun c =>
  match attrs c !! name with
  | Some (AttrInt i) => (OK i, c)
  | Some _ => (Failed (InvalidArgument (AttrWrongType name)), c)
  | None => (Failed (NotFound (AttrNotFound name)), c)
  end.

(** Modelled from the spec: [InferenceContext::GetAttr<bool>]
    (shape_inference.h). *)
Definition GetAttr_bool (name : string) : Infer bool := fun c =>
  match attrs c !! name with
  | Some (AttrBool b) => (OK b, c)
  | Some _ => (Failed (InvalidArgument (AttrWrongType name)), c)
  | None => (Failed (NotFound (AttrNotFound name)), c)
  end.

(** Modelled from the spec: [InferenceContext::MakeDim] (shape_inference.h).
    A new dimension of the given size. *)
Definition MakeDim (value : Z) : Infer DimensionHandle := fun c =>
  (OK (Dimension (next_dim c) (Some value)),
   Context (attrs c) (inputs c) (outputs c) (S (next_dim c))).

(** Modelled from the spec: [InferenceContext::UnknownDim]
    (shape_inference.h).  A new dimension of unknown size. *)
Definition UnknownDim : Infer DimensionHandle := fun c =>
  (OK (Dimension (next_dim c) None),
   Context (attrs c) (inputs c) (outputs c) (S (next_dim c))).

(** Modelled from the spec: [RankKnown] and [Rank] (shape_inference.h);
    [Rank] is defined only if the rank is known. *)
Definition RankKnown (s : ShapeHandle) : bool :=
  match s with
  | UnknownRank => false
  | KnownRank _ => true
  end.

Definition Rank (s : ShapeHandle) : option Z :=
  match s with
  | UnknownRank => None
  | KnownRank dims => Some (Z.of_nat (length dims))
  end.

Definition defined {A : Type} (o : option A) : Infer A :=
  match o with
  | Some a => ret a
  | None => undefined
  end.

(** Modelled from the spec: the shape constructors [Scalar], [Vector],
    [Matrix] and [UnknownShape] (shape_inference.h). *)
Definition Scalar : ShapeHandle := KnownRank [].
Definition Vector (d : DimensionHandle) : ShapeHandle := KnownRank [d].
Definition Matrix (d1 d2 : DimensionHandle) : ShapeHandle := KnownRank [d1; d2].
Definition UnknownShape : ShapeHandle := UnknownRank.

Fixpoint unknown_dims (n : nat) : Infer (list DimensionHandle) :=
  match n with
  | O => ret []
  | S n' => d <- UnknownDim ;; ds <- unknown_dims n' ;; ret (d :: ds)
  end.

(** Modelled from the spec: [InferenceContext::UnknownShapeOfRank]
    (shape_inference.h).  A shape of the given rank whose dimensions are all
    new and unknown. *)
Definition UnknownShapeOfRank (rank : Z) : Infer ShapeHandle :=
  ds <- unknown_dims (Z.to_nat rank) ;; ret (KnownRank ds).

(** Modelled from the spec: [InferenceContext::WithRank]
    (shape_inference.h).  Succeeds with a shape of exactly rank [rank] if
    [shape] has unknown rank or already has that rank, and fails otherwise.
    No shape has a negative rank, so a negative [rank] fails too; the three
    shape functions never ask for one on a shape of unknown rank. *)
Definition WithRank (shape : ShapeHandle) (rank : Z) : Infer ShapeHandle :=
  match shape with
  | KnownRank dims =>
      if Z.of_nat (length dims) =? rank then ret shape
      else fail (InvalidArgument (RankMustBe rank (Z.of_nat (length dims))))
  | UnknownRank =>
      if rank <? 0 then fail (InvalidArgument (RankNegative rank))
      else UnknownShapeOfRank rank
  end.

(** Modelled from the spec: [InferenceContext::WithRankAtLeast]
    (shape_inference.h).  The lower-bound form of [WithRank]: a shape of
    unknown rank or of rank at least [rank] is returned, any other fails. *)
Definition WithRankAtLeast (shape : ShapeHandle) (rank : Z) : Infer ShapeHandle :=
  match shape with
  | KnownRank dims =>
      if rank <=? Z.of_nat (length dims) then ret shape
      else fail (InvalidArgument (RankMustBeAtLeast rank (Z.of_nat (length dims))))
  | UnknownRank => ret shape
  end.

(** Modelled from the spec: [InferenceContext::Dim] (shape_inference.h).
    The i-th dimension of a shape; a shape of unknown rank yields an unknown
    dimension. *)
Definition Dim (s : ShapeHandle) (idx : Z) : Infer DimensionHandle :=
  match s with
  | UnknownRank => UnknownDim
  | KnownRank dims =>
      if bool_decide (0 <= idx) then defined (dims !! Z.to_nat idx)
      else undefined
  end.

(** The product of the sizes of a list of dimensions, [None] as soon as one
    of them is unknown. *)
Fixpoint product (dims : list DimensionHandle) : option Z :=
  match dims with
  | [] => Some 1
  | d :: ds =>
      match dim_value d, product ds with
      | Some v, Some p => Some (v * p)
      | _, _ => None
      end
  end.

(** Modelled from the spec: [InferenceContext::NumElements]
    (shape_inference.h).  The product of all dimensions, unknown if any is
    unknown (or if the rank is). *)
Definition NumElements (s : ShapeHandle) : Infer DimensionHandle :=
  match s with
  | UnknownRank => UnknownDim
  | KnownRank dims =>
      match product dims with
      | Some p => MakeDim p
      | None => UnknownDim
      end
  end.

(** Modelled from the spec: [InferenceContext::Subtract]
    (shape_inference.h).  [Subtract(dim, constant)] propagates unknown.  It
    returns a [Status] at its call site, and a dimension is a non-negative
    size: the difference of known operands is returned when it is not
    negative, and the call fails when it would be. *)
Definition Subtract (first : DimensionHandle) (second : Z) : Infer DimensionHandle :=
  match dim_value first with
  | None => UnknownDim
  | Some v =>
      if v <? second
      then fail (InvalidArgument (NegativeDimension v second))
      else MakeDim (v - second)
  end.

(** Modelled from the spec: [InferenceContext::set_output]
    (shape_inference.h).  Records the i-th output shape. *)
Definition set_output (idx : Z) (shape : ShapeHandle) : Infer unit := fun c =>
  (OK tt,
   Context (attrs c) (inputs c) (outputs c ++ [(idx, shape)]) (next_dim c)).

(** ** Shape functions *)

(** The body of the loop both ragged-to-* functions run over their split
    inputs:
    [ShapeHandle splits = c->input(i);
     TF_RETURN_IF_ERROR(c->WithRank(splits, 1, &splits));]
    It yields what its local [splits] holds when the round ends, the shape
    [WithRank] wrote back into it. *)
Definition check_split (i : Z) : Infer ShapeHandle :=
  splits <- input i ;;
  splits <- WithRank splits 1 ;;
  ret splits.

Definition RaggedTensorToSparseShapeFn : Infer unit :=
  num_splits <- GetAttr_int64 "RAGGED_RANK" ;;
  if num_splits <? 1 then
    fail (InvalidArgument (Text "Requires RAGGED_RANK>0"))
  else
    rt_dense_values <- input num_splits ;;
    rt_dense_values <- WithRankAtLeast rt_dense_values 1 ;;
    for_range (Z.to_nat num_splits) 0 check_split ;;;
    dense_dims <-
      (if RankKnown rt_dense_values
       then rank <- defined (Rank rt_dense_values) ;;
            MakeDim (Int64.add rank num_splits)
       else UnknownDim) ;;
    num_values <- NumElements rt_dense_values ;;
    set_output 0 (Matrix num_values dense_dims) ;;;
    set_output 1 (Vector num_values) ;;;
    set_output 2 (Vector dense_dims) ;;;
    ret tt.

Definition RaggedTensorToVariantShapeFn : Infer unit :=
  num_splits <- GetAttr_int64 "RAGGED_RANK" ;;
  batched <- GetAttr_bool "batched_input" ;;
  rt_dense_values <- input num_splits ;;
  rt_dense_values <- WithRankAtLeast rt_dense_values 1 ;;
  for_range (Z.to_nat num_splits) 0 check_split ;;;
  (if batched : bool then
     first_splits <- input 0 ;;
     num_first_splits <- Dim first_splits 0 ;;
     num_rows <- Subtract num_first_splits 1 ;;
     set_output 0 (Vector num_rows)
   else
     set_output 0 Scalar) ;;;
  ret tt.

Definition RaggedTensorFromVariantShapeFn : Infer unit :=
  input_ragged_rank <- GetAttr_int64 "input_ragged_rank" ;;
  output_ragged_rank <- GetAttr_int64 "output_ragged_rank" ;;
  encoded_ragged <- input 0 ;;
  (if RankKnown encoded_ragged then
     unused <- WithRank encoded_ragged
                 (Int64.sub output_ragged_rank input_ragged_rank) ;;
     ret tt
   else ret tt) ;;;
  for_range (Z.to_nat output_ragged_rank) 0
    (fun i => s <- UnknownShapeOfRank 1 ;; set_output i s) ;;;
  set_output output_ragged_rank UnknownShape ;;;
  ret tt.

(** ** Registered operators *)

(** The three [REGISTER_OP] blocks: the shape function of each operator, and
    how many outputs its signature declares ([output_ragged_rank * Tsplits]
    followed by the values, for the last one). *)
Inductive Op : Type :=
  | RaggedTensorToSparse
  | RaggedTensorToVariant
  | RaggedTensorFromVariant.

Definition SetShapeFn (op : Op) : Infer unit :=
  match op with
  | RaggedTensorToSparse => RaggedTensorToSparseShapeFn
  | RaggedTensorToVariant => RaggedTensorToVariantShapeFn
  | RaggedTensorFromVariant => RaggedTensorFromVariantShapeFn
  end.

Definition attr_int (c : InferenceContext) (name : string) : option Z :=
  match attrs c !! name with
  | Some (AttrInt i) => Some i
  | _ => None
  end.

Definition num_outputs (op : Op) (c : InferenceContext) : option Z :=
  match op with
  | RaggedTensorToSparse => Some 3
  | RaggedTensorToVariant => Some 1
  | RaggedTensorFromVariant =>
      match attr_int c "output_ragged_rank" with
      | Some r => Some (r + 1)
      | None => None
      end
  end.

(** The attribute constraints [input_ragged_rank: int >= 0] and
    [output_ragged_rank: int >= 1] of [RaggedTensorFromVariant], on [int64]
    values. *)
Definition FromVariant_attrs_registered (input_ragged_rank output_ragged_rank : Z) : Prop :=
  0 <= input_ragged_rank <= Int64.max_value /\
  1 <= output_ragged_rank <= Int64.max_value.

(** ** Reading a context *)

(** How often [set_output] was called for an index, and the shape an output
    holds after a sequence of calls (the last one recorded for it). *)
Definition calls_for (idx : Z) (calls : list (Z * ShapeHandle)) : list (Z * ShapeHandle) :=
  filter (fun p => p.1 = idx) calls.

Definition times_set (idx : Z) (calls : list (Z * ShapeHandle)) : nat :=
  length (calls_for idx calls).

Definition output (c : InferenceContext) (idx : Z) : option ShapeHandle :=
  snd <$> last (calls_for idx (outputs c)).

(** A 1-D shape of unknown length. *)
Definition is_unknown_vector (s : ShapeHandle) : bool :=
  match s with
  | KnownRank [d] => bool_decide (dim_value d = None)
  | _ => false
  end.

(** What the split check accepts: rank 1, or a rank not known yet. *)
Definition split_ok (s : ShapeHandle) : bool :=
  match s with
  | UnknownRank => true
  | KnownRank dims => bool_decide (length dims = 1%nat)
  end.

(** How many of the shapes have an unknown rank. *)
Fixpoint unknown_rank_count (shapes : list ShapeHandle) : nat :=
  match shapes with
  | [] => 0
  | UnknownRank :: rest => S (unknown_rank_count rest)
  | KnownRank _ :: rest => unknown_rank_count rest
  end.

(** What the values check accepts: rank at least 1, or a rank not known
    yet. *)
Definition values_ok (s : ShapeHandle) : bool :=
  match s with
  | UnknownRank => true
  | KnownRank dims => bool_decide (1 <= length dims)%nat
  end.

(** The outputs the loop of [RaggedTensorFromVariantShapeFn] records in [n]
    rounds from index [i], allocating dimensions from [id]. *)
Fixpoint split_outputs (n : nat) (i : Z) (id : nat) : list (Z * ShapeHandle) :=
  match n with
  | O => []
  | S n' => (i, KnownRank [Dimension id None]) :: split_outputs n' (i + 1) (S id)
  end.

(** ** Reasoning about calls *)

(** [same_node c c']: the two contexts differ at most in the dimensions
    allocated; attributes, inputs and recorded outputs agree. *)
Definition same_node (c c' : InferenceContext) : Prop :=
  attrs c' = attrs c /\ inputs c' = inputs c /\ outputs c' = outputs c.

(** A call is quiet when it never records an output, whatever it yields. *)
Definition quiet {A : Type} (m : Infer A) : Prop :=
  forall c, same_node c (m c).2.

(** [exactly_once n calls]: the calls set each of the outputs [0 .. n-1]
    once, and nothing else. *)
Definition exactly_once (n : Z) (calls : list (Z * ShapeHandle)) : Prop :=
  forall idx : Z,
    times_set idx calls = if bool_decide (0 <= idx < n) then 1%nat else 0%nat.

(** A call is all-or-nothing when a success appends calls of which [P]
    holds, and anything else leaves the recorded outputs as they were. *)
Definition all_or_nothing (P : list (Z * ShapeHandle) -> Prop)
    (m : Infer unit) (c : InferenceContext) : Prop :=
  match m c with
  | (OK _, c') => exists new, outputs c' = outputs c ++ new /\ P new
  | (_, c') => outputs c' = outputs c
  end.

(** ** Example nodes *)

(** A dimension of known size. *)
Definition known (id : nat) (size : Z) : DimensionHandle :=
  Dimension id (Some size).

(** Nodes of the three operators, with no output recorded yet. *)
Definition to_sparse_node (ragged_rank : Z) (ins : list ShapeHandle) : InferenceContext :=
  Context {[ "RAGGED_RANK" := AttrInt ragged_rank ]} ins [] 100.

Definition to_variant_node (ragged_rank : Z) (batched : bool)
    (ins : list ShapeHandle) : InferenceContext :=
  Context (<[ "batched_input" := AttrBool batched ]>
             {[ "RAGGED_RANK" := AttrInt ragged_rank ]}) ins [] 100.

Definition from_variant_node (input_ragged_rank output_ragged_rank : Z)
    (ins : list ShapeHandle) : InferenceContext :=
  Context (<[ "input_ragged_rank" := AttrInt input_ragged_rank ]>
             {[ "output_ragged_rank" := AttrInt output_ragged_rank ]}) ins [] 100.

(** ** Further readings of a node *)

(** What the subtraction of 1 accepts of the first input of a batched
    [RaggedTensorToVariant]: a first dimension that is unknown, or known and
    at least 1. *)
Definition rows_ok (first : ShapeHandle) : bool :=
  match first with
  | KnownRank (l :: _) =>
      match dim_value l with
      | Some v => bool_decide (1 <= v)
      | None => true
      end
  | _ => true
  end.

Definition attr_bool (c : InferenceContext) (name : string) : option bool :=
  match attrs c !! name with
  | Some (AttrBool b) => Some b
  | _ => None
  end.

(** Whether the attributes a shape function reads are all there, with the
    types it reads them at. *)
Definition has_attrs (op : Op) (c : InferenceContext) : bool :=
  match op with
  | RaggedTensorToSparse =>
      bool_decide (is_Some (attr_int c "RAGGED_RANK"))
  | RaggedTensorToVariant =>
      bool_decide (is_Some (attr_int c "RAGGED_RANK")) &&
      bool_decide (is_Some (attr_bool c "batched_input"))
  | RaggedTensorFromVariant =>
      bool_decide (is_Some (attr_int c "input_ragged_rank")) &&
      bool_decide (is_Some (attr_int c "output_ragged_rank"))
  end.

(** * Properties *)

Lemma Int64_wrap_id (z : Z) : Int64.in_range z -> Int64.wrap z = z.
Proof.
  unfold Int64.in_range, Int64.wrap, Int64.min_value, Int64.max_value.
  intros Hz. rewrite Z.mod_small; lia.
Qed.

Lemma FromVariant_attrs_in_range (irr orr : Z) :
  FromVariant_attrs_registered irr orr -> Int64.in_range (orr - irr).
Proof.
  unfold FromVariant_attrs_registered, Int64.in_range,
    Int64.min_value, Int64.max_value.
  lia.
Qed.

(** ** The monad *)

Lemma bind_OK {A B : Type} (m : Infer A) (k : A -> Infer B) c a c' :
  m c = (OK a, c') -> bind m k c = k a c'.
Proof. unfold bind. intros ->. reflexivity. Qed.

Lemma bind_Failed {A B : Type} (m : Infer A) (k : A -> Infer B) c e c' :
  m c = (Failed e, c') -> bind m k c = (Failed e, c').
Proof. unfold bind. intros ->. reflexivity. Qed.

Lemma same_node_refl c : same_node c c.
Proof. repeat split. Qed.

Lemma same_node_trans c1 c2 c3 :
  same_node c1 c2 -> same_node c2 c3 -> same_node c1 c3.
Proof.
  unfold same_node. intros (-> & -> & ->) (-> & -> & ->). repeat split.
Qed.

Create HintDb quiet.

Lemma quiet_ret {A : Type} (a : A) : quiet (ret a).
Proof. intros c. apply same_node_refl. Qed.

Lemma quiet_fail {A : Type} (e : Error) : quiet (@fail A e).
Proof. intros c. apply same_node_refl. Qed.

Lemma quiet_undefined {A : Type} : quiet (@undefined A).
Proof. intros c. apply same_node_refl. Qed.

Lemma quiet_bind {A B : Type} (m : Infer A) (k : A -> Infer B) :
  quiet m -> (forall a, quiet (k a)) -> quiet (bind m k).
Proof.
  intros Hm Hk c. unfold bind. specialize (Hm c).
  destruct (m c) as [[a | e |] c1]; simpl in Hm; simpl; auto.
  eapply same_node_trans; [exact Hm | apply Hk].
Qed.

Lemma quiet_defined {A : Type} (o : option A) : quiet (defined o).
Proof. destruct o; [apply quiet_ret | apply quiet_undefined]. Qed.

Lemma quiet_input i : quiet (input i).
Proof.
  intros c. unfold input.
  destruct (bool_decide (0 <= i)); [destruct (inputs c !! Z.to_nat i) |];
    apply same_node_refl.
Qed.

Lemma quiet_GetAttr_int64 name : quiet (GetAttr_int64 name).
Proof.
  intros c. unfold GetAttr_int64.
  destruct (attrs c !! name) as [[]|]; apply same_node_refl.
Qed.

Lemma quiet_GetAttr_bool name : quiet (GetAttr_bool name).
Proof.
  intros c. unfold GetAttr_bool.
  destruct (attrs c !! name) as [[]|]; apply same_node_refl.
Qed.

Lemma quiet_MakeDim v : quiet (MakeDim v).
Proof. intros c. repeat split. Qed.

Lemma quiet_UnknownDim : quiet UnknownDim.
Proof. intros c. repeat split. Qed.

#[global] Hint Resolve quiet_ret quiet_fail quiet_undefined quiet_defined
  quiet_input quiet_GetAttr_int64 quiet_GetAttr_bool quiet_MakeDim
  quiet_UnknownDim : quiet.

Ltac quiet_step :=
  first
    [ apply quiet_bind; [| intros ? ]
    | match goal with
      | |- quiet (if ?b then _ else _) => destruct b
      | |- quiet (match ?o with Some _ => _ | None => _ end) => destruct o
      end
    | solve [ auto with quiet ] ].

Lemma quiet_unknown_dims n : quiet (unknown_dims n).
Proof. induction n; simpl; repeat quiet_step. Qed.

#[global] Hint Resolve quiet_unknown_dims : quiet.

Lemma quiet_UnknownShapeOfRank r : quiet (UnknownShapeOfRank r).
Proof. unfold UnknownShapeOfRank. repeat quiet_step. Qed.

#[global] Hint Resolve quiet_UnknownShapeOfRank : quiet.

Lemma quiet_WithRank s r : quiet (WithRank s r).
Proof. destruct s; simpl; repeat quiet_step. Qed.

Lemma quiet_WithRankAtLeast s r : quiet (WithRankAtLeast s r).
Proof. destruct s; simpl; repeat quiet_step. Qed.

Lemma quiet_Dim s i : quiet (Dim s i).
Proof. destruct s; simpl; repeat quiet_step. Qed.

Lemma quiet_NumElements s : quiet (NumElements s).
Proof. destruct s; simpl; repeat quiet_step. Qed.

Lemma quiet_Subtract d z : quiet (Subtract d z).
Proof. unfold Subtract. repeat quiet_step. Qed.

#[global] Hint Resolve quiet_WithRank quiet_WithRankAtLeast quiet_Dim
  quiet_NumElements quiet_Subtract : quiet.

Lemma quiet_check_split i : quiet (check_split i).
Proof. unfold check_split. repeat quiet_step. Qed.

Lemma quiet_for_range {A : Type} (body : Z -> Infer A) :
  (forall i, quiet (body i)) -> forall n i, quiet (for_range n i body).
Proof.
  intros Hbody. induction n as [| n IH]; intros i; simpl.
  - apply quiet_ret.
  - apply quiet_bind; [apply Hbody | intros _; apply IH].
Qed.

Lemma quiet_check_splits n i : quiet (for_range n i check_split).
Proof. apply quiet_for_range, quiet_check_split. Qed.

#[global] Hint Resolve quiet_check_split quiet_check_splits : quiet.

(** ** Running the methods *)

Lemma GetAttr_int64_run c name k :
  attrs c !! name = Some (AttrInt k) -> GetAttr_int64 name c = (OK k, c).
Proof. unfold GetAttr_int64. intros ->. reflexivity. Qed.

Lemma GetAttr_bool_run c name b :
  attrs c !! name = Some (AttrBool b) -> GetAttr_bool name c = (OK b, c).
Proof. unfold GetAttr_bool. intros ->. reflexivity. Qed.

Lemma input_run c i s :
  0 <= i -> inputs c !! Z.to_nat i = Some s -> input i c = (OK s, c).
Proof.
  intros Hi Hs. unfold input.
  rewrite bool_decide_eq_true_2 by exact Hi. rewrite Hs. reflexivity.
Qed.

Lemma WithRankAtLeast_run c s :
  WithRankAtLeast s 1 c =
    if values_ok s then (OK s, c)
    else (Failed (InvalidArgument
                    (RankMustBeAtLeast 1 (default 0 (Rank s)))), c).
Proof.
  destruct s as [| dims]; simpl; [reflexivity |].
  destruct (Z.leb_spec 1 (Z.of_nat (length dims))).
  - rewrite bool_decide_eq_true_2 by lia. reflexivity.
  - rewrite bool_decide_eq_false_2 by lia. reflexivity.
Qed.

(** The split check on one input: accepted as it is when of rank 1, narrowed
    to a vector of a new unknown dimension when of unknown rank, refused
    otherwise. *)
Lemma WithRank_1_run c s :
  WithRank s 1 c =
    match s with
    | UnknownRank =>
        (OK (KnownRank [Dimension (next_dim c) None]),
         Context (attrs c) (inputs c) (outputs c) (S (next_dim c)))
    | KnownRank dims =>
        if split_ok s then (OK s, c)
        else (Failed (InvalidArgument
                        (RankMustBe 1 (Z.of_nat (length dims)))), c)
    end.
Proof.
  destruct s as [| dims]; simpl; [reflexivity |].
  destruct (Z.eqb_spec (Z.of_nat (length dims)) 1).
  - rewrite bool_decide_eq_true_2 by lia. reflexivity.
  - rewrite bool_decide_eq_false_2 by lia. reflexivity.
Qed.

Lemma check_split_spec c i s :
  0 <= i -> inputs c !! Z.to_nat i = Some s ->
  exists c', same_node c c' /\
    if split_ok s then exists s', check_split i c = (OK s', c')
    else exists e, check_split i c = (Failed e, c').
Proof.
  intros Hi Hs. unfold check_split.
  rewrite (bind_OK _ _ _ _ _ (input_run _ _ _ Hi Hs)).
  unfold bind. rewrite WithRank_1_run.
  destruct s as [| dims].
  - eexists. split; [| eexists; reflexivity]. repeat split.
  - destruct (split_ok (KnownRank dims)).
    + exists c. split; [apply same_node_refl | eexists; reflexivity].
    + exists c. split; [apply same_node_refl | eexists; reflexivity].
Qed.

(** The loop over the split inputs succeeds exactly when each of them passes
    the check, and records nothing either way. *)
Lemma check_splits_spec n :
  forall i c,
    0 <= i -> (Z.to_nat i + n <= length (inputs c))%nat ->
    exists c', same_node c c' /\
      if forallb split_ok (take n (drop (Z.to_nat i) (inputs c)))
      then for_range n i check_split c = (OK tt, c')
      else exists e, for_range n i check_split c = (Failed e, c').
Proof.
  induction n as [| n IH]; intros i c Hi Hlen.
  - exists c. split; [apply same_node_refl | reflexivity].
  - destruct (inputs c !! Z.to_nat i) as [s |] eqn:Hs.
    2:{ apply lookup_ge_None in Hs. lia. }
    rewrite (drop_S _ _ _ Hs). simpl.
    destruct (check_split_spec c i s Hi Hs) as (c1 & Hsame & Hrun).
    destruct (split_ok s); simpl.
    + destruct Hrun as (s' & Hrun).
      destruct Hsame as (Ha & Hin & Hout).
      destruct (IH (i + 1) c1) as (c2 & Hsame2 & Hrun2); [lia | |].
      { rewrite Hin. lia. }
      exists c2. split.
      { eapply same_node_trans; [| exact Hsame2]. repeat split; assumption. }
      rewrite Hin in Hrun2.
      replace (Z.to_nat (i + 1)) with (S (Z.to_nat i)) in Hrun2 by lia.
      rewrite (bind_OK _ _ _ _ _ Hrun). exact Hrun2.
    + destruct Hrun as (e & Hrun). exists c1. split; [exact Hsame |].
      exists e. apply bind_Failed. exact Hrun.
Qed.

(** ** Recorded outputs *)

Lemma times_set_app idx l1 l2 :
  times_set idx (l1 ++ l2) = (times_set idx l1 + times_set idx l2)%nat.
Proof. unfold times_set, calls_for. rewrite filter_app, length_app. reflexivity. Qed.

Lemma times_set_cons idx i s l :
  times_set idx ((i, s) :: l) =
    ((if bool_decide (i = idx) then 1 else 0) + times_set idx l)%nat.
Proof.
  unfold times_set, calls_for. rewrite filter_cons. simpl.
  destruct (decide (i = idx)) as [Heq | Hne].
  - rewrite bool_decide_eq_true_2 by exact Heq. reflexivity.
  - rewrite bool_decide_eq_false_2 by exact Hne. reflexivity.
Qed.

Lemma times_set_split_outputs n :
  forall i id idx,
    times_set idx (split_outputs n i id) =
      if bool_decide (i <= idx < i + Z.of_nat n) then 1%nat else 0%nat.
Proof.
  induction n as [| n IH]; intros i id idx.
  - simpl. rewrite bool_decide_eq_false_2 by lia. reflexivity.
  - simpl split_outputs. rewrite times_set_cons, IH.
    repeat case_bool_decide; lia.
Qed.

Lemma emit_splits_run n :
  forall i c,
    for_range n i (fun i => s <- UnknownShapeOfRank 1 ;; set_output i s) c =
      (OK tt,
       Context (attrs c) (inputs c)
         (outputs c ++ split_outputs n i (next_dim c)) (next_dim c + n)).
Proof.
  induction n as [| n IH]; intros i c.
  - destruct c. simpl. unfold ret. rewrite app_nil_r, Nat.add_0_r. reflexivity.
  - simpl for_range. unfold bind at 1. simpl.
    rewrite IH. simpl. rewrite <- app_assoc. simpl.
    do 2 f_equal. lia.
Qed.

Lemma aon_bind_quiet {A : Type} P (m : Infer A) (k : A -> Infer unit) c :
  quiet m ->
  (forall a c1, same_node c c1 -> all_or_nothing P (k a) c1) ->
  all_or_nothing P (bind m k) c.
Proof.
  intros Hm Hk. unfold all_or_nothing, bind.
  specialize (Hm c). destruct (m c) as [[a | e |] c1]; simpl in Hm.
  - specialize (Hk a c1 Hm). unfold all_or_nothing in Hk.
    destruct Hm as (_ & _ & Hout). rewrite <- Hout. exact Hk.
  - apply Hm.
  - apply Hm.
Qed.

Lemma aon_fail P e c : all_or_nothing P (fail e) c.
Proof. reflexivity. Qed.

Ltac aon_quiet_steps :=
  repeat (apply aon_bind_quiet;
          [ solve [ repeat quiet_step ] | intros ? ? ? ]).

Lemma ToSparse_all_or_nothing c :
  all_or_nothing (exactly_once 3) RaggedTensorToSparseShapeFn c.
Proof.
  unfold RaggedTensorToSparseShapeFn.
  apply aon_bind_quiet; [auto with quiet | intros k c1 _].
  destruct (k <? 1); [apply aon_fail |].
  aon_quiet_steps.
  unfold all_or_nothing, bind, set_output, ret. simpl.
  eexists. split.
  - rewrite <- !app_assoc. simpl. reflexivity.
  - intros idx. rewrite !times_set_cons. unfold times_set. simpl.
    repeat case_bool_decide; lia.
Qed.

Lemma aon_bind_ret P (m : Infer unit) c :
  all_or_nothing P m c -> all_or_nothing P (m ;;; ret tt) c.
Proof.
  unfold all_or_nothing, bind, ret.
  destruct (m c) as [[[] | e |] c1]; auto.
Qed.

Lemma aon_set_output_0 s c :
  all_or_nothing (exactly_once 1) (set_output 0 s) c.
Proof.
  unfold all_or_nothing, set_output. simpl.
  eexists. split; [reflexivity |].
  intros idx. rewrite times_set_cons. unfold times_set. simpl.
  repeat case_bool_decide; lia.
Qed.

Lemma ToVariant_all_or_nothing c :
  all_or_nothing (exactly_once 1) RaggedTensorToVariantShapeFn c.
Proof.
  unfold RaggedTensorToVariantShapeFn.
  aon_quiet_steps.
  apply aon_bind_ret.
  match goal with |- context [if ?b then _ else _] => destruct b end.
  - aon_quiet_steps. apply aon_set_output_0.
  - apply aon_set_output_0.
Qed.

Lemma FromVariant_all_or_nothing c :
  all_or_nothing
    (fun new =>
       forall r, attr_int c "output_ragged_rank" = Some r -> 0 <= r ->
                 exactly_once (r + 1) new)
    RaggedTensorFromVariantShapeFn c.
Proof.
  unfold RaggedTensorFromVariantShapeFn.
  apply aon_bind_quiet; [auto with quiet | intros irr c1 Hc1].
  destruct Hc1 as (Hattrs & _ & _). unfold attr_int. rewrite <- Hattrs.
  unfold all_or_nothing, bind at 1, GetAttr_int64.
  destruct (attrs c1 !! "output_ragged_rank") as [[orr | |] |];
    try reflexivity.
  fold (all_or_nothing
          (fun new => forall r, Some orr = Some r -> 0 <= r ->
                                exactly_once (r + 1) new)).
  aon_quiet_steps.
  unfold all_or_nothing. unfold bind at 1. rewrite emit_splits_run.
  unfold bind, set_output, ret. simpl.
  eexists. split; [rewrite <- app_assoc; reflexivity |].
  intros r [= <-] Hr idx.
  rewrite times_set_app, times_set_split_outputs, times_set_cons.
  unfold times_set. simpl.
  repeat case_bool_decide; lia.
Qed.

(** ** The checks shared by the two ragged-to-* functions *)

Lemma input_values_run c k splits values :
  inputs c = splits ++ [values] -> Z.of_nat (length splits) = k ->
  input k c = (OK values, c).
Proof.
  intros Hin Hk. apply input_run; [lia |].
  rewrite Hin. replace (Z.to_nat k) with (length splits) by lia.
  apply list_lookup_middle. reflexivity.
Qed.

Lemma check_all_splits c k splits values :
  inputs c = splits ++ [values] -> Z.of_nat (length splits) = k ->
  exists c1, same_node c c1 /\
    if forallb split_ok splits
    then for_range (Z.to_nat k) 0 check_split c = (OK tt, c1)
    else exists e, for_range (Z.to_nat k) 0 check_split c = (Failed e, c1).
Proof.
  intros Hin Hk.
  destruct (check_splits_spec (Z.to_nat k) 0 c) as (c1 & Hsame & Hrun);
    [lia | rewrite Hin, length_app; simpl; lia |].
  exists c1. split; [exact Hsame |].
  rewrite Hin in Hrun. change (Z.to_nat 0) with 0%nat in Hrun.
  rewrite drop_0 in Hrun.
  replace (Z.to_nat k) with (length splits) in * by lia.
  rewrite take_app_length in Hrun. exact Hrun.
Qed.

Lemma rank_1_split_ok splits :
  Forall (fun s => Rank s = Some 1) splits -> forallb split_ok splits = true.
Proof.
  induction 1 as [| s l Hs _ IH]; [reflexivity |]. simpl.
  rewrite IH, andb_true_r. destruct s as [| dims]; [discriminate |].
  simpl in *. apply bool_decide_eq_true_2. injection Hs. lia.
Qed.

Lemma NumElements_run c dims :
  NumElements (KnownRank dims) c =
    (OK (Dimension (next_dim c) (product dims)),
     Context (attrs c) (inputs c) (outputs c) (S (next_dim c))).
Proof. simpl. destruct (product dims); reflexivity. Qed.

(** Stepping through a bind whose first call is known to succeed. *)
Ltac run_with H := rewrite (bind_OK _ _ _ _ _ H).
Ltac run_refl := erewrite bind_OK by reflexivity.

(** ** RaggedTensorToVariant, past its checks *)

(** When the values and every split pass their rank checks,
    [RaggedTensorToVariantShapeFn] comes down to its last statement, run on
    a context that still has the same attributes, inputs and outputs. *)
Lemma ToVariant_checks_pass c k (b : bool) splits values :
  attrs c !! "RAGGED_RANK" = Some (AttrInt k) ->
  attrs c !! "batched_input" = Some (AttrBool b) ->
  inputs c = splits ++ [values] ->
  Z.of_nat (length splits) = k ->
  forallb split_ok splits = true ->
  values_ok values = true ->
  exists c1, same_node c c1 /\
    RaggedTensorToVariantShapeFn c =
      ((if b then
          first_splits <- input 0 ;;
          num_first_splits <- Dim first_splits 0 ;;
          num_rows <- Subtract num_first_splits 1 ;;
          set_output 0 (Vector num_rows)
        else set_output 0 Scalar) ;;; ret tt) c1.
Proof.
  intros Hk Hb Hin Hlen Hsplits Hvalues.
  destruct (check_all_splits c k splits _ Hin Hlen) as (c1 & Hsame & Hloop).
  rewrite Hsplits in Hloop.
  exists c1. split; [exact Hsame |].
  unfold RaggedTensorToVariantShapeFn.
  run_with (GetAttr_int64_run _ _ _ Hk).
  run_with (GetAttr_bool_run _ _ _ Hb).
  run_with (input_values_run _ _ _ _ Hin Hlen).
  erewrite bind_OK by (rewrite WithRankAtLeast_run, Hvalues; reflexivity).
  run_with Hloop.
  reflexivity.
Qed.

(** When a check refuses the node, the function fails and records
    nothing. *)
Lemma ToVariant_checks_fail c k splits values :
  attrs c !! "RAGGED_RANK" = Some (AttrInt k) ->
  inputs c = splits ++ [values] ->
  Z.of_nat (length splits) = k ->
  forallb split_ok splits && values_ok values = false ->
  exists e c', RaggedTensorToVariantShapeFn c = (Failed e, c') /\
               outputs c' = outputs c.
Proof.
  intros Hk Hin Hlen Hbad.
  unfold RaggedTensorToVariantShapeFn.
  run_with (GetAttr_int64_run _ _ _ Hk).
  unfold bind at 1. unfold GetAttr_bool.
  destruct (attrs c !! "batched_input") as [[| b |] |];
    try (do 2 eexists; split; reflexivity).
  run_with (input_values_run _ _ _ _ Hin Hlen).
  unfold bind at 1. rewrite WithRankAtLeast_run.
  destruct (values_ok values).
  - rewrite andb_true_r in Hbad.
    destruct (check_all_splits c k splits _ Hin Hlen) as (c1 & Hsame & Hloop).
    rewrite Hbad in Hloop. destruct Hloop as (e & Hloop).
    exists e, c1. split; [| apply Hsame].
    apply bind_Failed. exact Hloop.
  - do 2 eexists. split; reflexivity.
Qed.

Lemma ToSparse_checks_fail c k splits values :
  attrs c !! "RAGGED_RANK" = Some (AttrInt k) ->
  inputs c = splits ++ [values] ->
  Z.of_nat (length splits) = k ->
  forallb split_ok splits && values_ok values = false ->
  exists e c', RaggedTensorToSparseShapeFn c = (Failed e, c') /\
               outputs c' = outputs c.
Proof.
  intros Hk Hin Hlen Hbad.
  unfold RaggedTensorToSparseShapeFn.
  run_with (GetAttr_int64_run _ _ _ Hk).
  destruct (k <? 1); [do 2 eexists; split; reflexivity |].
  run_with (input_values_run _ _ _ _ Hin Hlen).
  unfold bind at 1. rewrite WithRankAtLeast_run.
  destruct (values_ok values).
  - rewrite andb_true_r in Hbad.
    destruct (check_all_splits c k splits _ Hin Hlen) as (c1 & Hsame & Hloop).
    rewrite Hbad in Hloop. destruct Hloop as (e & Hloop).
    exists e, c1. split; [| apply Hsame].
    apply bind_Failed. exact Hloop.
  - do 2 eexists. split; reflexivity.
Qed.

Lemma ToSparse_checks_pass c k splits values :
  attrs c !! "RAGGED_RANK" = Some (AttrInt k) ->
  1 <= k ->
  inputs c = splits ++ [values] ->
  Z.of_nat (length splits) = k ->
  forallb split_ok splits = true ->
  values_ok values = true ->
  exists c', RaggedTensorToSparseShapeFn c = (OK tt, c').
Proof.
  intros Hk Hk1 Hin Hlen Hsplits Hvalues.
  destruct (check_all_splits c k splits _ Hin Hlen) as (c1 & Hsame & Hloop).
  rewrite Hsplits in Hloop.
  unfold RaggedTensorToSparseShapeFn.
  run_with (GetAttr_int64_run _ _ _ Hk).
  destruct (Z.ltb_spec k 1); [lia |].
  run_with (input_values_run _ _ _ _ Hin Hlen).
  erewrite bind_OK by (rewrite WithRankAtLeast_run, Hvalues; reflexivity).
  run_with Hloop.
  destruct values as [| vdims].
  - eexists. reflexivity.
  - run_refl. rewrite (bind_OK _ _ _ _ _ (NumElements_run _ vdims)).
    eexists. reflexivity.
Qed.

(** With [batched_input = false], whatever
    [RaggedTensorToVariantShapeFn] records on success is the scalar shape
    for output 0. *)
Lemma ToVariant_unbatched_all_or_nothing c :
  attrs c !! "batched_input" = Some (AttrBool false) ->
  all_or_nothing (fun new => new = [(0, Scalar)])
    RaggedTensorToVariantShapeFn c.
Proof.
  intros Hb. unfold RaggedTensorToVariantShapeFn.
  apply aon_bind_quiet; [auto with quiet | intros k c1 (Hattrs & _ & _)].
  unfold all_or_nothing. rewrite <- Hattrs in Hb.
  run_with (GetAttr_bool_run _ _ _ Hb).
  fold (all_or_nothing (fun new => new = [(0, Scalar)])).
  aon_quiet_steps.
  apply aon_bind_ret.
  unfold all_or_nothing, set_output. simpl.
  eexists. split; reflexivity.
Qed.

(** ** RaggedTensorFromVariant *)

(** The whole of [RaggedTensorFromVariantShapeFn], once both attributes are
    there: without an input nothing is defined, an input whose known rank
    differs from the (wrapped) difference of the attributes fails, and any
    other input gives the split outputs followed by the values output. *)
Lemma FromVariant_run c irr orr :
  attrs c !! "input_ragged_rank" = Some (AttrInt irr) ->
  attrs c !! "output_ragged_rank" = Some (AttrInt orr) ->
  RaggedTensorFromVariantShapeFn c =
    match inputs c !! 0%nat with
    | None => (Undefined, c)
    | Some UnknownRank =>
        (OK tt,
         Context (attrs c) (inputs c)
           (outputs c ++ split_outputs (Z.to_nat orr) 0 (next_dim c)
                      ++ [(orr, UnknownShape)])
           (next_dim c + Z.to_nat orr))
    | Some (KnownRank dims) =>
        if Z.of_nat (length dims) =? Int64.sub orr irr then
          (OK tt,
           Context (attrs c) (inputs c)
             (outputs c ++ split_outputs (Z.to_nat orr) 0 (next_dim c)
                        ++ [(orr, UnknownShape)])
             (next_dim c + Z.to_nat orr))
        else
          (Failed (InvalidArgument
                     (RankMustBe (Int64.sub orr irr)
                        (Z.of_nat (length dims)))), c)
    end.
Proof.
  intros Hirr Horr. unfold RaggedTensorFromVariantShapeFn.
  run_with (GetAttr_int64_run _ _ _ Hirr).
  run_with (GetAttr_int64_run _ _ _ Horr).
  unfold bind at 1, input. rewrite bool_decide_eq_true_2 by lia.
  change (Z.to_nat 0) with 0%nat.
  destruct (inputs c !! 0%nat) as [[| dims] |]; [| | reflexivity].
  - run_refl. run_with (emit_splits_run (Z.to_nat orr) 0 c).
    unfold bind, set_output, ret. simpl. rewrite <- app_assoc. reflexivity.
  - destruct (Z.of_nat (length dims) =? Int64.sub orr irr) eqn:Hrank.
    + erewrite bind_OK
        by (simpl RankKnown; cbv iota; unfold bind, WithRank;
            rewrite Hrank; reflexivity).
      run_with (emit_splits_run (Z.to_nat orr) 0 c).
      unfold bind, set_output, ret. simpl. rewrite <- app_assoc. reflexivity.
    + erewrite bind_Failed
        by (simpl RankKnown; cbv iota; unfold bind, WithRank;
            rewrite Hrank; reflexivity).
      reflexivity.
Qed.

Lemma calls_for_app idx l1 l2 :
  calls_for idx (l1 ++ l2) = calls_for idx l1 ++ calls_for idx l2.
Proof. apply filter_app. Qed.

Lemma calls_for_split_outputs n :
  forall i id idx,
    calls_for idx (split_outputs n i id) =
      if bool_decide (i <= idx < i + Z.of_nat n)
      then [(idx, KnownRank [Dimension (id + Z.to_nat (idx - i)) None])]
      else [].
Proof.
  induction n as [| n IH]; intros i id idx.
  - simpl. rewrite bool_decide_eq_false_2 by lia. reflexivity.
  - simpl split_outputs. unfold calls_for. rewrite filter_cons. simpl.
    fold (calls_for idx (split_outputs n (i + 1) (S id))). rewrite IH.
    destruct (decide (i = idx)) as [<- | Hne].
    + rewrite bool_decide_eq_false_2 by lia.
      rewrite bool_decide_eq_true_2 by lia.
      replace (id + Z.to_nat (i - i))%nat with id by lia. reflexivity.
    + repeat case_bool_decide; try lia; try reflexivity.
      replace (S id + Z.to_nat (idx - (i + 1)))%nat
        with (id + Z.to_nat (idx - i))%nat by lia.
      reflexivity.
Qed.

(** What the outputs read once the split outputs and the values output
    have been recorded. *)
Lemma output_after_FromVariant c' old r id :
  outputs c' = old ++ split_outputs (Z.to_nat r) 0 id ++ [(r, UnknownShape)] ->
  (forall i, 0 <= i < r ->
     exists s, output c' i = Some s /\ is_unknown_vector s = true) /\
  output c' r = Some UnknownShape.
Proof.
  intros Hout. unfold output. rewrite Hout.
  split.
  - intros i Hi. rewrite !calls_for_app, calls_for_split_outputs.
    rewrite bool_decide_eq_true_2 by lia.
    unfold calls_for at 2. rewrite filter_cons, filter_nil. simpl.
    destruct (decide (r = i)); [lia |].
    rewrite last_snoc. simpl.
    eexists. split; reflexivity.
  - rewrite !calls_for_app, calls_for_split_outputs.
    rewrite bool_decide_eq_false_2 by lia.
    unfold calls_for at 2. rewrite filter_cons, filter_nil. simpl.
    destruct (decide (r = r)); [| contradiction].
    rewrite last_snoc. reflexivity.
Qed.

(** On a split input of unknown rank the loop body ends with its local
    holding a vector of one new dimension, of unknown size. *)
Lemma check_split_narrows c i :
  0 <= i -> inputs c !! Z.to_nat i = Some UnknownRank ->
  check_split i c =
    (OK (KnownRank [Dimension (next_dim c) None]),
     Context (attrs c) (inputs c) (outputs c) (S (next_dim c))).
Proof.
  intros Hi Hs. unfold check_split.
  run_with (input_run _ _ _ Hi Hs). reflexivity.
Qed.

(** The split loop, when it accepts every split, changes the context only
    by the dimensions it allocates: one for each split of unknown rank. *)
Lemma check_splits_alloc n :
  forall i c,
    0 <= i -> (Z.to_nat i + n <= length (inputs c))%nat ->
    forallb split_ok (take n (drop (Z.to_nat i) (inputs c))) = true ->
    for_range n i check_split c =
      (OK tt,
       Context (attrs c) (inputs c) (outputs c)
         (next_dim c +
          unknown_rank_count (take n (drop (Z.to_nat i) (inputs c))))).
Proof.
  induction n as [| n IH]; intros i c Hi Hlen Hok.
  - destruct c. simpl. unfold ret. rewrite Nat.add_0_r. reflexivity.
  - destruct (inputs c !! Z.to_nat i) as [s |] eqn:Hs.
    2:{ apply lookup_ge_None in Hs. lia. }
    rewrite (drop_S _ _ _ Hs) in Hok |- *. simpl take in Hok |- *.
    simpl forallb in Hok. apply andb_true_iff in Hok as (Hs_ok & Hok).
    simpl for_range. destruct s as [| dims].
    + run_with (check_split_narrows c i Hi Hs).
      rewrite IH; simpl; [| lia | lia |].
      * replace (Z.to_nat (i + 1)) with (S (Z.to_nat i)) by lia.
        do 2 f_equal. lia.
      * replace (Z.to_nat (i + 1)) with (S (Z.to_nat i)) by lia. exact Hok.
    + assert (Hrun : check_split i c = (OK (KnownRank dims), c)).
      { unfold check_split. run_with (input_run _ _ _ Hi Hs).
        unfold bind. rewrite WithRank_1_run, Hs_ok. reflexivity. }
      run_with Hrun.
      rewrite IH; [| lia | lia |].
      * replace (Z.to_nat (i + 1)) with (S (Z.to_nat i)) by lia. reflexivity.
      * replace (Z.to_nat (i + 1)) with (S (Z.to_nat i)) by lia. exact Hok.
Qed.

Lemma check_all_splits_alloc c k splits values :
  inputs c = splits ++ [values] -> Z.of_nat (length splits) = k ->
  forallb split_ok splits = true ->
  for_range (Z.to_nat k) 0 check_split c =
    (OK tt,
     Context (attrs c) (inputs c) (outputs c)
       (next_dim c + unknown_rank_count splits)).
Proof.
  intros Hin Hlen Hok.
  assert (Htake : take (Z.to_nat k) (drop (Z.to_nat 0) (inputs c)) = splits).
  { change (Z.to_nat 0) with 0%nat. rewrite drop_0, Hin.
    replace (Z.to_nat k) with (length splits) by lia.
    apply take_app_length. }
  rewrite check_splits_alloc; [rewrite Htake; reflexivity | lia | |].
  - rewrite Hin, length_app. simpl. lia.
  - rewrite Htake. exact Hok.
Qed.

(** Both ragged-to-* functions, on a node that passes their checks,
    allocate one dimension for each split of unknown rank, and nothing
    else but the dimensions of their outputs. *)
Lemma ToSparse_alloc c k splits values :
  attrs c !! "RAGGED_RANK" = Some (AttrInt k) ->
  1 <= k ->
  inputs c = splits ++ [values] ->
  Z.of_nat (length splits) = k ->
  forallb split_ok splits = true ->
  values_ok values = true ->
  exists c', RaggedTensorToSparseShapeFn c = (OK tt, c') /\
             next_dim c' = (next_dim c + unknown_rank_count splits + 2)%nat.
Proof.
  intros Hk Hk1 Hin Hlen Hsplits Hvalues.
  unfold RaggedTensorToSparseShapeFn.
  run_with (GetAttr_int64_run _ _ _ Hk).
  destruct (Z.ltb_spec k 1); [lia |].
  run_with (input_values_run _ _ _ _ Hin Hlen).
  erewrite bind_OK by (rewrite WithRankAtLeast_run, Hvalues; reflexivity).
  run_with (check_all_splits_alloc c k splits values Hin Hlen Hsplits).
  destruct values as [| vdims].
  - eexists. split; [reflexivity |]. simpl. lia.
  - run_refl. rewrite (bind_OK _ _ _ _ _ (NumElements_run _ vdims)).
    eexists. split; [reflexivity |]. simpl. lia.
Qed.

Lemma ToVariant_unbatched_alloc c k splits values :
  attrs c !! "RAGGED_RANK" = Some (AttrInt k) ->
  attrs c !! "batched_input" = Some (AttrBool false) ->
  inputs c = splits ++ [values] ->
  Z.of_nat (length splits) = k ->
  forallb split_ok splits = true ->
  values_ok values = true ->
  exists c', RaggedTensorToVariantShapeFn c = (OK tt, c') /\
             next_dim c' = (next_dim c + unknown_rank_count splits)%nat.
Proof.
  intros Hk Hb Hin Hlen Hsplits Hvalues.
  unfold RaggedTensorToVariantShapeFn.
  run_with (GetAttr_int64_run _ _ _ Hk).
  run_with (GetAttr_bool_run _ _ _ Hb).
  run_with (input_values_run _ _ _ _ Hin Hlen).
  erewrite bind_OK by (rewrite WithRankAtLeast_run, Hvalues; reflexivity).
  run_with (check_all_splits_alloc c k splits values Hin Hlen Hsplits).
  eexists. split; reflexivity.
Qed.

(** * The claims *)

(** ** RaggedTensorToSparse *)

(** C2.  Whenever the [RAGGED_RANK] attribute is below 1,
    [RaggedTensorToSparseShapeFn] fails with the InvalidArgument error
    "Requires RAGGED_RANK>0", whatever the input shapes are, and hands the
    context back as it got it: no output is recorded. *)
Theorem ToSparse_ragged_rank_below_1 (c : InferenceContext) (k : Z) :
  attrs c !! "RAGGED_RANK" = Some (AttrInt k) ->
  k < 1 ->
  RaggedTensorToSparseShapeFn c =
    (Failed (InvalidArgument (Text "Requires RAGGED_RANK>0")), c).
Proof.
  intros Hattr Hk. unfold RaggedTensorToSparseShapeFn.
  rewrite (bind_OK _ _ _ _ _ (GetAttr_int64_run _ _ _ Hattr)).
  destruct (Z.ltb_spec k 1); [reflexivity | lia].
Qed.

Lemma ToSparse_ragged_rank_below_1_witness :
  let c := to_sparse_node 0 [KnownRank [known 0 5]] in
  attrs c !! "RAGGED_RANK" = Some (AttrInt 0) /\
  0 < 1 /\
  RaggedTensorToSparseShapeFn c =
    (Failed (InvalidArgument (Text "Requires RAGGED_RANK>0")), c).
Proof.
  intros c.
  assert (Hattr : attrs c !! "RAGGED_RANK" = Some (AttrInt 0)) by reflexivity.
  assert (Hk : 0 < 1) by lia.
  exact (conj Hattr (conj Hk (ToSparse_ragged_rank_below_1 c 0 Hattr Hk))).
Defined.

(** C1, as stated, fails for a values input of known rank 0: with one split
    of shape [3] and scalar values the rank check on the values refuses the
    node, and no output exists. *)
Lemma ToSparse_scalar_values_refused :
  ~ (forall (c : InferenceContext) (k : Z) (splits : list ShapeHandle)
            (vdims : list DimensionHandle),
        attrs c !! "RAGGED_RANK" = Some (AttrInt k) ->
        1 <= k ->
        inputs c = splits ++ [KnownRank vdims] ->
        Z.of_nat (length splits) = k ->
        Forall (fun s => Rank s = Some 1) splits ->
        Int64.in_range (Z.of_nat (length vdims) + k) ->
        exists (n dense : DimensionHandle) (c' : InferenceContext),
          RaggedTensorToSparseShapeFn c = (OK tt, c') /\
          outputs c' =
            outputs c ++ [(0, KnownRank [n; dense]); (1, KnownRank [n]);
                          (2, KnownRank [dense])] /\
          dim_value n = product vdims /\
          dim_value dense = Some (Z.of_nat (length vdims) + k)).
Proof.
  intros H.
  destruct (H (to_sparse_node 1 [KnownRank [known 0 3]; KnownRank []])
              1 [KnownRank [known 0 3]] [])
    as (n & dense & c' & Hrun & _).
  - reflexivity.
  - lia.
  - reflexivity.
  - reflexivity.
  - repeat constructor.
  - unfold Int64.in_range, Int64.min_value, Int64.max_value. simpl. lia.
  - vm_compute in Hrun. discriminate Hrun.
Qed.

(** C1, amended.  For [RAGGED_RANK = k >= 1], [k] split inputs of rank 1
    and a values input of known rank [v >= 1] (with [v + k] an [int64]),
    [RaggedTensorToSparseShapeFn] succeeds and records exactly three
    outputs: output 0 is [[N, v+k]], output 1 is [[N]] and output 2 is
    [[v+k]], where [N] is one and the same dimension in outputs 0 and 1, of
    size the product of the values' dimensions, unknown if one of them is. *)
Theorem ToSparse_outputs (c : InferenceContext) (k : Z)
    (splits : list ShapeHandle) (vdims : list DimensionHandle) :
  attrs c !! "RAGGED_RANK" = Some (AttrInt k) ->
  1 <= k ->
  inputs c = splits ++ [KnownRank vdims] ->
  Z.of_nat (length splits) = k ->
  Forall (fun s => Rank s = Some 1) splits ->
  (1 <= length vdims)%nat ->
  Int64.in_range (Z.of_nat (length vdims) + k) ->
  exists (n dense : DimensionHandle) (c' : InferenceContext),
    RaggedTensorToSparseShapeFn c = (OK tt, c') /\
    outputs c' =
      outputs c ++ [(0, KnownRank [n; dense]); (1, KnownRank [n]);
                    (2, KnownRank [dense])] /\
    dim_value n = product vdims /\
    dim_value dense = Some (Z.of_nat (length vdims) + k).
Proof.
  intros Hattr Hk Hin Hlen Hsplits Hv Hrange.
  destruct (check_all_splits c k splits _ Hin Hlen) as (c1 & Hsame & Hloop).
  rewrite (rank_1_split_ok _ Hsplits) in Hloop.
  destruct Hsame as (_ & _ & Hout).
  eexists _, _, _. split; [| split; [| split]].
  - unfold RaggedTensorToSparseShapeFn.
    run_with (GetAttr_int64_run _ _ _ Hattr).
    destruct (Z.ltb_spec k 1); [lia |].
    run_with (input_values_run _ _ _ _ Hin Hlen).
    erewrite bind_OK
      by (rewrite WithRankAtLeast_run; simpl values_ok;
          rewrite bool_decide_eq_true_2 by exact Hv; reflexivity).
    run_with Hloop.
    run_refl.
    run_with (NumElements_run
                (Context (attrs c1) (inputs c1) (outputs c1) (S (next_dim c1)))
                vdims).
    reflexivity.
  - simpl. rewrite Hout, <- !app_assoc. reflexivity.
  - reflexivity.
  - simpl. unfold Int64.add. rewrite Int64_wrap_id by exact Hrange.
    reflexivity.
Qed.

Lemma ToSparse_outputs_witness :
  exists (n dense : DimensionHandle) (c' : InferenceContext),
    RaggedTensorToSparseShapeFn
      (to_sparse_node 2 [KnownRank [known 0 3]; KnownRank [known 1 7];
                         KnownRank [known 2 6; known 3 4]]) = (OK tt, c') /\
    outputs c' =
      [(0, KnownRank [n; dense]); (1, KnownRank [n]); (2, KnownRank [dense])] /\
    dim_value n = Some 24 /\
    dim_value dense = Some 4.
Proof.
  apply (ToSparse_outputs
           (to_sparse_node 2 [KnownRank [known 0 3]; KnownRank [known 1 7];
                              KnownRank [known 2 6; known 3 4]])
           2 [KnownRank [known 0 3]; KnownRank [known 1 7]]
           [known 2 6; known 3 4]).
  - reflexivity.
  - lia.
  - reflexivity.
  - reflexivity.
  - repeat constructor.
  - simpl. lia.
  - unfold Int64.in_range, Int64.min_value, Int64.max_value. simpl. lia.
Defined.

(** ** RaggedTensorToVariant *)

(** C3, as stated, fails for a first split of known length 0: every rank
    check passes, yet the subtraction of 1 refuses the node and the output
    [[L-1]] is not produced. *)
Lemma ToVariant_batched_length_0_refused :
  ~ (forall (c : InferenceContext) (k : Z) (first : ShapeHandle)
            (rest : list ShapeHandle) (values : ShapeHandle)
            (l : DimensionHandle) (L : Z),
        attrs c !! "RAGGED_RANK" = Some (AttrInt k) ->
        attrs c !! "batched_input" = Some (AttrBool true) ->
        inputs c = (first :: rest) ++ [values] ->
        Z.of_nat (length (first :: rest)) = k ->
        forallb split_ok (first :: rest) = true ->
        values_ok values = true ->
        first = KnownRank [l] ->
        dim_value l = Some L ->
        exists (rows : DimensionHandle) (c' : InferenceContext),
          RaggedTensorToVariantShapeFn c = (OK tt, c') /\
          outputs c' = outputs c ++ [(0, KnownRank [rows])] /\
          dim_value rows = Some (L - 1)).
Proof.
  intros H.
  destruct (H (to_variant_node 1 true
                 [KnownRank [known 0 0]; KnownRank [known 1 7]])
              1 (KnownRank [known 0 0]) [] (KnownRank [known 1 7])
              (known 0 0) 0)
    as (rows & c' & Hrun & _); try reflexivity.
  vm_compute in Hrun. discriminate Hrun.
Qed.

(** C3, amended.  With [batched_input = true] and every rank check
    passing, [RaggedTensorToVariantShapeFn] records one output.  If the
    first split has the known shape [[L]] with [L >= 1], the output is the
    1-D shape [[L-1]]; if the length of the first split, or its rank, is
    unknown, the output is a 1-D shape of unknown length. *)
Theorem ToVariant_batched_rows (c : InferenceContext) (k : Z)
    (first : ShapeHandle) (rest : list ShapeHandle) (values : ShapeHandle) :
  attrs c !! "RAGGED_RANK" = Some (AttrInt k) ->
  attrs c !! "batched_input" = Some (AttrBool true) ->
  inputs c = (first :: rest) ++ [values] ->
  Z.of_nat (length (first :: rest)) = k ->
  forallb split_ok (first :: rest) = true ->
  values_ok values = true ->
  (forall (l : DimensionHandle) (L : Z),
      first = KnownRank [l] -> dim_value l = Some L -> 1 <= L ->
      exists (rows : DimensionHandle) (c' : InferenceContext),
        RaggedTensorToVariantShapeFn c = (OK tt, c') /\
        outputs c' = outputs c ++ [(0, KnownRank [rows])] /\
        dim_value rows = Some (L - 1)) /\
  (first = UnknownRank \/
   (exists l : DimensionHandle, first = KnownRank [l] /\ dim_value l = None) ->
   exists (rows : DimensionHandle) (c' : InferenceContext),
     RaggedTensorToVariantShapeFn c = (OK tt, c') /\
     outputs c' = outputs c ++ [(0, KnownRank [rows])] /\
     dim_value rows = None).
Proof.
  intros Hk Hb Hin Hlen Hsplits Hvalues.
  destruct (ToVariant_checks_pass c k true _ _ Hk Hb Hin Hlen Hsplits Hvalues)
    as (c1 & (_ & Hin1 & Hout1) & ->).
  assert (Hfirst : input 0 c1 = (OK first, c1)).
  { apply input_run; [lia |]. rewrite Hin1, Hin. reflexivity. }
  split.
  - intros l L -> Hl HL.
    eexists _, _. split; [| split].
    + unfold bind at 1. run_with Hfirst.
      run_refl.
      erewrite bind_OK.
      2:{ unfold Subtract. rewrite Hl.
          destruct (Z.ltb_spec L 1); [lia | reflexivity]. }
      reflexivity.
    + simpl. rewrite Hout1. reflexivity.
    + reflexivity.
  - intros [-> | (l & -> & Hl)].
    + eexists _, _. split; [| split].
      * unfold bind at 1. run_with Hfirst. reflexivity.
      * simpl. rewrite Hout1. reflexivity.
      * reflexivity.
    + eexists _, _. split; [| split].
      * unfold bind at 1. run_with Hfirst. run_refl.
        erewrite bind_OK by (unfold Subtract; rewrite Hl; reflexivity).
        reflexivity.
      * simpl. rewrite Hout1. reflexivity.
      * reflexivity.
Qed.

Lemma ToVariant_batched_rows_witness :
  (exists (rows : DimensionHandle) (c' : InferenceContext),
      RaggedTensorToVariantShapeFn
        (to_variant_node 2 true
           [KnownRank [known 0 5]; UnknownRank; KnownRank [known 1 9]])
        = (OK tt, c') /\
      outputs c' = [(0, KnownRank [rows])] /\
      dim_value rows = Some 4) /\
  (exists (rows : DimensionHandle) (c' : InferenceContext),
      RaggedTensorToVariantShapeFn
        (to_variant_node 2 true
           [UnknownRank; KnownRank [known 0 5]; KnownRank [known 1 9]])
        = (OK tt, c') /\
      outputs c' = [(0, KnownRank [rows])] /\
      dim_value rows = None).
Proof.
  split.
  - apply (proj1 (ToVariant_batched_rows
                    (to_variant_node 2 true
                       [KnownRank [known 0 5]; UnknownRank;
                        KnownRank [known 1 9]])
                    2 (KnownRank [known 0 5]) [UnknownRank]
                    (KnownRank [known 1 9])
                    eq_refl eq_refl eq_refl eq_refl eq_refl eq_refl)
              (known 0 5) 5 eq_refl eq_refl).
    lia.
  - apply (proj2 (ToVariant_batched_rows
                    (to_variant_node 2 true
                       [UnknownRank; KnownRank [known 0 5];
                        KnownRank [known 1 9]])
                    2 UnknownRank [KnownRank [known 0 5]]
                    (KnownRank [known 1 9])
                    eq_refl eq_refl eq_refl eq_refl eq_refl eq_refl)).
    left. reflexivity.
Defined.

(** C10.  With [batched_input = true] and a first split of the known shape
    [[0]], [RaggedTensorToVariantShapeFn] fails and records no output: when
    the rank checks pass, the failure is that of subtracting 1 from the
    known dimension 0, which would give a negative size. *)
Theorem ToVariant_batched_length_0 (c : InferenceContext) (k : Z)
    (l : DimensionHandle) (rest : list ShapeHandle) (values : ShapeHandle) :
  attrs c !! "RAGGED_RANK" = Some (AttrInt k) ->
  attrs c !! "batched_input" = Some (AttrBool true) ->
  inputs c = (KnownRank [l] :: rest) ++ [values] ->
  Z.of_nat (length (KnownRank [l] :: rest)) = k ->
  dim_value l = Some 0 ->
  exists (e : Error) (c' : InferenceContext),
    RaggedTensorToVariantShapeFn c = (Failed e, c') /\
    outputs c' = outputs c /\
    (forallb split_ok rest = true -> values_ok values = true ->
     e = InvalidArgument (NegativeDimension 0 1)).
Proof.
  intros Hk Hb Hin Hlen Hl.
  destruct (forallb split_ok (KnownRank [l] :: rest) && values_ok values)
    eqn:Hchecks.
  - apply andb_true_iff in Hchecks as (Hsplits & Hvalues).
    destruct (ToVariant_checks_pass c k true _ _ Hk Hb Hin Hlen Hsplits Hvalues)
      as (c1 & (_ & Hin1 & Hout1) & ->).
    assert (Hfirst : input 0 c1 = (OK (KnownRank [l]), c1)).
    { apply input_run; [lia |]. rewrite Hin1, Hin. reflexivity. }
    exists (InvalidArgument (NegativeDimension 0 1)), c1.
    split; [| split; [exact Hout1 | reflexivity]].
    unfold bind at 1. run_with Hfirst. run_refl.
    unfold bind, Subtract. rewrite Hl. reflexivity.
  - destruct (ToVariant_checks_fail c k _ _ Hk Hin Hlen Hchecks)
      as (e & c' & Hrun & Hout).
    exists e, c'. split; [exact Hrun | split; [exact Hout |]].
    intros Hrest Hvalues. simpl in Hchecks.
    rewrite Hrest, Hvalues in Hchecks. discriminate Hchecks.
Qed.

Lemma ToVariant_batched_length_0_witness :
  exists c' : InferenceContext,
    RaggedTensorToVariantShapeFn
      (to_variant_node 1 true [KnownRank [known 0 0]; KnownRank [known 1 7]])
      = (Failed (InvalidArgument (NegativeDimension 0 1)), c') /\
    outputs c' = [].
Proof.
  destruct (ToVariant_batched_length_0
              (to_variant_node 1 true
                 [KnownRank [known 0 0]; KnownRank [known 1 7]])
              1 (known 0 0) [] (KnownRank [known 1 7])
              eq_refl eq_refl eq_refl eq_refl eq_refl)
    as (e & c' & Hrun & Hout & He).
  exists c'. rewrite <- (He eq_refl eq_refl). split; assumption.
Defined.

(** C8.  With [batched_input = false], the one output of
    [RaggedTensorToVariantShapeFn] is the scalar shape, whatever the input
    shapes are: every successful call records output 0 as the scalar shape
    and nothing else, and the call does succeed as soon as the values and
    the splits pass their rank checks. *)
Theorem ToVariant_unbatched_scalar (c : InferenceContext) :
  attrs c !! "batched_input" = Some (AttrBool false) ->
  (forall c' : InferenceContext,
      RaggedTensorToVariantShapeFn c = (OK tt, c') ->
      outputs c' = outputs c ++ [(0, Scalar)]) /\
  (forall (k : Z) (splits : list ShapeHandle) (values : ShapeHandle),
      attrs c !! "RAGGED_RANK" = Some (AttrInt k) ->
      inputs c = splits ++ [values] ->
      Z.of_nat (length splits) = k ->
      forallb split_ok splits = true ->
      values_ok values = true ->
      exists c' : InferenceContext,
        RaggedTensorToVariantShapeFn c = (OK tt, c')).
Proof.
  intros Hb. split.
  - intros c' Hrun.
    pose proof (ToVariant_unbatched_all_or_nothing c Hb) as Haon.
    unfold all_or_nothing in Haon. rewrite Hrun in Haon.
    destruct Haon as (new & Hout & ->). exact Hout.
  - intros k splits values Hk Hin Hlen Hsplits Hvalues.
    destruct (ToVariant_checks_pass c k false _ _ Hk Hb Hin Hlen Hsplits Hvalues)
      as (c1 & _ & ->).
    eexists. reflexivity.
Qed.

Lemma ToVariant_unbatched_scalar_witness :
  exists c' : InferenceContext,
    RaggedTensorToVariantShapeFn
      (to_variant_node 2 false
         [KnownRank [known 0 4]; UnknownRank;
          KnownRank [known 1 9; known 2 2]]) = (OK tt, c') /\
    outputs c' = [(0, Scalar)].
Proof.
  pose proof (ToVariant_unbatched_scalar
                (to_variant_node 2 false
                   [KnownRank [known 0 4]; UnknownRank;
                    KnownRank [known 1 9; known 2 2]]) eq_refl)
    as (Hscalar & Hruns).
  destruct (Hruns 2 [KnownRank [known 0 4]; UnknownRank]
              (KnownRank [known 1 9; known 2 2])
              eq_refl eq_refl eq_refl eq_refl eq_refl) as (c' & Hrun).
  exists c'. split; [exact Hrun | exact (Hscalar c' Hrun)].
Defined.

(** ** The split inputs *)

(** C7.  For [RaggedTensorToSparseShapeFn] and
    [RaggedTensorToVariantShapeFn] alike, a split input whose rank is known
    and is not 1 makes the call fail, with no output recorded.  A split
    input of unknown rank is accepted and narrowed to rank 1: the loop
    body both functions run on it succeeds and leaves in its local
    [splits] a vector of one dimension of unknown size; and when every
    split has rank 1 or an unknown rank and the values pass their check,
    the split loop lets both functions go on
    ([RaggedTensorToSparseShapeFn] then succeeds, for [RAGGED_RANK >= 1];
    [RaggedTensorToVariantShapeFn] succeeds when unbatched), having
    allocated one dimension for each split of unknown rank, that of the
    vector it was narrowed to, next to the two dimensions of the outputs
    of [RaggedTensorToSparseShapeFn]. *)
Theorem split_rank_checked (c : InferenceContext) (k : Z)
    (splits : list ShapeHandle) (values : ShapeHandle) :
  attrs c !! "RAGGED_RANK" = Some (AttrInt k) ->
  inputs c = splits ++ [values] ->
  Z.of_nat (length splits) = k ->
  (forall (i : nat) (dims : list DimensionHandle),
      splits !! i = Some (KnownRank dims) -> length dims <> 1%nat ->
      (exists (e : Error) (c' : InferenceContext),
          RaggedTensorToSparseShapeFn c = (Failed e, c') /\
          outputs c' = outputs c) /\
      (exists (e : Error) (c' : InferenceContext),
          RaggedTensorToVariantShapeFn c = (Failed e, c') /\
          outputs c' = outputs c)) /\
  (Forall (fun s => s = UnknownRank \/ Rank s = Some 1) splits ->
   values_ok values = true ->
   (1 <= k -> exists c' : InferenceContext,
        RaggedTensorToSparseShapeFn c = (OK tt, c') /\
        next_dim c' = (next_dim c + unknown_rank_count splits + 2)%nat) /\
   (attrs c !! "batched_input" = Some (AttrBool false) ->
    exists c' : InferenceContext,
      RaggedTensorToVariantShapeFn c = (OK tt, c') /\
      next_dim c' = (next_dim c + unknown_rank_count splits)%nat)) /\
  (forall i : nat,
      splits !! i = Some UnknownRank ->
      exists (d : DimensionHandle) (c' : InferenceContext),
        check_split (Z.of_nat i) c = (OK (KnownRank [d]), c') /\
        dim_value d = None /\
        outputs c' = outputs c).
Proof.
  intros Hk Hin Hlen. split; [| split].
  - intros i dims Hi Hdims.
    assert (Hbad : forallb split_ok splits && values_ok values = false).
    { apply andb_false_iff. left. apply not_true_is_false. intros Hall.
      rewrite forallb_forall in Hall.
      specialize (Hall (KnownRank dims)).
      rewrite <- list_elem_of_In in Hall.
      specialize (Hall (list_elem_of_lookup_2 _ _ _ Hi)).
      simpl in Hall. apply bool_decide_eq_true_1 in Hall. contradiction. }
    split.
    + apply (ToSparse_checks_fail c k splits values); assumption.
    + apply (ToVariant_checks_fail c k splits values); assumption.
  - intros Hall Hvalues.
    assert (Hsplits : forallb split_ok splits = true).
    { clear -Hall. induction Hall as [| s l Hs _ IH]; [reflexivity |].
      simpl. rewrite IH, andb_true_r.
      destruct Hs as [-> | Hs]; [reflexivity |].
      destruct s as [| dims]; [reflexivity |].
      simpl in *. apply bool_decide_eq_true_2. injection Hs. lia. }
    split.
    + intros Hk1. apply (ToSparse_alloc c k splits values); assumption.
    + intros Hb. apply (ToVariant_unbatched_alloc c k splits values);
        assumption.
  - intros i Hi.
    assert (Hs : inputs c !! Z.to_nat (Z.of_nat i) = Some UnknownRank).
    { rewrite Nat2Z.id, Hin. apply lookup_app_l_Some. exact Hi. }
    rewrite (check_split_narrows c (Z.of_nat i) ltac:(lia) Hs).
    eexists _, _. split; [reflexivity | split; reflexivity].
Qed.

Lemma split_rank_checked_witness :
  ((exists (e : Error) (c' : InferenceContext),
       RaggedTensorToSparseShapeFn
         (to_variant_node 2 false
            [KnownRank [known 0 4]; KnownRank [known 1 3; known 2 3];
             KnownRank [known 3 9]]) = (Failed e, c') /\
       outputs c' = []) /\
   (exists (e : Error) (c' : InferenceContext),
       RaggedTensorToVariantShapeFn
         (to_variant_node 2 false
            [KnownRank [known 0 4]; KnownRank [known 1 3; known 2 3];
             KnownRank [known 3 9]]) = (Failed e, c') /\
       outputs c' = [])) /\
  ((exists c' : InferenceContext,
       RaggedTensorToSparseShapeFn
         (to_variant_node 2 false
            [KnownRank [known 0 4]; UnknownRank; KnownRank [known 3 9]])
         = (OK tt, c') /\
       next_dim c' = 103%nat) /\
   (exists c' : InferenceContext,
       RaggedTensorToVariantShapeFn
         (to_variant_node 2 false
            [KnownRank [known 0 4]; UnknownRank; KnownRank [known 3 9]])
         = (OK tt, c') /\
       next_dim c' = 101%nat)) /\
  (exists (d : DimensionHandle) (c' : InferenceContext),
      check_split 1
        (to_variant_node 2 false
           [KnownRank [known 0 4]; UnknownRank; KnownRank [known 3 9]])
      = (OK (KnownRank [d]), c') /\
      dim_value d = None /\
      outputs c' = []).
Proof.
  split; [| split].
  - apply (proj1 (split_rank_checked
                    (to_variant_node 2 false
                       [KnownRank [known 0 4];
                        KnownRank [known 1 3; known 2 3];
                        KnownRank [known 3 9]])
                    2 [KnownRank [known 0 4];
                       KnownRank [known 1 3; known 2 3]]
                    (KnownRank [known 3 9]) eq_refl eq_refl eq_refl)
              1%nat [known 1 3; known 2 3] eq_refl).
    simpl. lia.
  - destruct (proj1 (proj2 (split_rank_checked
                    (to_variant_node 2 false
                       [KnownRank [known 0 4]; UnknownRank;
                        KnownRank [known 3 9]])
                    2 [KnownRank [known 0 4]; UnknownRank]
                    (KnownRank [known 3 9]) eq_refl eq_refl eq_refl)))
      as (Hsparse & Hvariant).
    + constructor; [right; reflexivity |].
      constructor; [left; reflexivity | constructor].
    + reflexivity.
    + split; [apply Hsparse; lia | apply Hvariant; reflexivity].
  - exact (proj2 (proj2 (split_rank_checked
                    (to_variant_node 2 false
                       [KnownRank [known 0 4]; UnknownRank;
                        KnownRank [known 3 9]])
                    2 [KnownRank [known 0 4]; UnknownRank]
                    (KnownRank [known 3 9]) eq_refl eq_refl eq_refl))
             1%nat eq_refl).
Defined.

(** ** RaggedTensorFromVariant *)

(** C4.  With attributes [input_ragged_rank] and [output_ragged_rank = r],
    every successful call of [RaggedTensorFromVariantShapeFn] leaves
    outputs [0 .. r-1] each a 1-D shape of unknown length and output [r] a
    shape of unknown rank.  The call succeeds whenever the rank of the
    input is unknown, or is known and equals
    [output_ragged_rank - input_ragged_rank] (the difference taken in
    [int64]); so it does for [input_ragged_rank = 1],
    [output_ragged_rank = 3] and an input of known rank 2. *)
Theorem FromVariant_outputs (c : InferenceContext) (irr r : Z) :
  attrs c !! "input_ragged_rank" = Some (AttrInt irr) ->
  attrs c !! "output_ragged_rank" = Some (AttrInt r) ->
  (forall c' : InferenceContext,
      RaggedTensorFromVariantShapeFn c = (OK tt, c') ->
      (forall i : Z, 0 <= i < r ->
         exists s : ShapeHandle,
           output c' i = Some s /\ is_unknown_vector s = true) /\
      output c' r = Some UnknownShape) /\
  (forall s : ShapeHandle,
      inputs c !! 0%nat = Some s ->
      Int64.in_range (r - irr) ->
      Rank s = None \/ Rank s = Some (r - irr) ->
      exists c' : InferenceContext,
        RaggedTensorFromVariantShapeFn c = (OK tt, c')) /\
  (forall d1 d2 : DimensionHandle,
      irr = 1 -> r = 3 ->
      inputs c !! 0%nat = Some (KnownRank [d1; d2]) ->
      exists c' : InferenceContext,
        RaggedTensorFromVariantShapeFn c = (OK tt, c') /\
        (forall i : Z, 0 <= i < 3 ->
           exists s : ShapeHandle,
             output c' i = Some s /\ is_unknown_vector s = true) /\
        output c' 3 = Some UnknownShape).
Proof.
  intros Hirr Horr.
  pose proof (FromVariant_run c irr r Hirr Horr) as Hrun.
  split; [| split].
  - intros c' Hok. rewrite Hok in Hrun.
    apply (output_after_FromVariant c' (outputs c) r (next_dim c)).
    destruct (inputs c !! 0%nat) as [[| dims] |]; [| | discriminate Hrun].
    + injection Hrun as ->. reflexivity.
    + destruct (Z.of_nat (length dims) =? Int64.sub r irr);
        [| discriminate Hrun].
      injection Hrun as ->. reflexivity.
  - intros s Hs Hrange Hrank. rewrite Hs in Hrun.
    destruct s as [| dims]; [eexists; exact Hrun |].
    destruct Hrank as [Hrank | Hrank]; [discriminate Hrank |].
    injection Hrank as Hrank.
    unfold Int64.sub in Hrun. rewrite Int64_wrap_id in Hrun by exact Hrange.
    rewrite (proj2 (Z.eqb_eq _ _) Hrank) in Hrun.
    eexists; exact Hrun.
  - intros d1 d2 -> -> Hs. rewrite Hs in Hrun.
    change (Z.of_nat (length [d1; d2]) =? Int64.sub 3 1) with true in Hrun.
    cbv iota in Hrun. eexists. split; [exact Hrun |].
    eapply output_after_FromVariant. reflexivity.
Qed.

Lemma FromVariant_outputs_witness :
  exists c' : InferenceContext,
    RaggedTensorFromVariantShapeFn
      (from_variant_node 1 3 [KnownRank [known 0 2; known 1 7]])
      = (OK tt, c') /\
    (forall i : Z, 0 <= i < 3 ->
       exists s : ShapeHandle,
         output c' i = Some s /\ is_unknown_vector s = true) /\
    output c' 3 = Some UnknownShape.
Proof.
  exact (proj2 (proj2 (FromVariant_outputs
                         (from_variant_node 1 3
                            [KnownRank [known 0 2; known 1 7]])
                         1 3 eq_refl eq_refl))
           (known 0 2) (known 1 7) eq_refl eq_refl eq_refl).
Defined.

(** C5, as stated, fails: with [input_ragged_rank = 1],
    [output_ragged_rank = 3] and an input of known rank 2 the rank
    assertion compares 2 with 3 - 1 and the call succeeds. *)
Lemma FromVariant_rank_2_of_1_3_accepted :
  ~ (forall (c : InferenceContext) (dims : list DimensionHandle),
        attrs c !! "input_ragged_rank" = Some (AttrInt 1) ->
        attrs c !! "output_ragged_rank" = Some (AttrInt 3) ->
        inputs c !! 0%nat = Some (KnownRank dims) ->
        length dims = 2%nat ->
        exists (e : Error) (c' : InferenceContext),
          RaggedTensorFromVariantShapeFn c = (Failed e, c')).
Proof.
  intros H.
  destruct (H (from_variant_node 1 3 [KnownRank [known 0 2; known 1 7]])
              [known 0 2; known 1 7] eq_refl eq_refl eq_refl eq_refl)
    as (e & c' & Hrun).
  vm_compute in Hrun. discriminate Hrun.
Qed.

(** C5, amended.  With [input_ragged_rank = 1], [output_ragged_rank = 3]
    and an input shape of known rank, [RaggedTensorFromVariantShapeFn]
    succeeds when that rank is 2, and fails, with the context unchanged,
    when it is not. *)
Theorem FromVariant_rank_of_1_3 (c : InferenceContext)
    (dims : list DimensionHandle) :
  attrs c !! "input_ragged_rank" = Some (AttrInt 1) ->
  attrs c !! "output_ragged_rank" = Some (AttrInt 3) ->
  inputs c !! 0%nat = Some (KnownRank dims) ->
  (length dims = 2%nat ->
   exists c' : InferenceContext,
     RaggedTensorFromVariantShapeFn c = (OK tt, c')) /\
  (length dims <> 2%nat ->
   RaggedTensorFromVariantShapeFn c =
     (Failed (InvalidArgument (RankMustBe 2 (Z.of_nat (length dims)))), c)).
Proof.
  intros Hirr Horr Hs.
  pose proof (FromVariant_run c 1 3 Hirr Horr) as Hrun. rewrite Hs in Hrun.
  change (Int64.sub 3 1) with 2 in Hrun.
  split; intros Hlen.
  - rewrite (proj2 (Z.eqb_eq _ _)) in Hrun by lia. eexists. exact Hrun.
  - rewrite (proj2 (Z.eqb_neq _ _)) in Hrun by lia. exact Hrun.
Qed.

Lemma FromVariant_rank_of_1_3_witness :
  (exists c' : InferenceContext,
      RaggedTensorFromVariantShapeFn
        (from_variant_node 1 3 [KnownRank [known 0 2; known 1 7]])
        = (OK tt, c')) /\
  RaggedTensorFromVariantShapeFn
    (from_variant_node 1 3 [KnownRank [known 0 2; known 1 7; known 2 5]])
    = (Failed (InvalidArgument (RankMustBe 2 3)),
       from_variant_node 1 3 [KnownRank [known 0 2; known 1 7; known 2 5]]).
Proof.
  split.
  - apply (proj1 (FromVariant_rank_of_1_3
                    (from_variant_node 1 3 [KnownRank [known 0 2; known 1 7]])
                    [known 0 2; known 1 7] eq_refl eq_refl eq_refl)).
    reflexivity.
  - apply (proj2 (FromVariant_rank_of_1_3
                    (from_variant_node 1 3
                       [KnownRank [known 0 2; known 1 7; known 2 5]])
                    [known 0 2; known 1 7; known 2 5]
                    eq_refl eq_refl eq_refl)).
    simpl. lia.
Defined.

(** C6.  For attributes with [output_ragged_rank < input_ragged_rank]
    (their difference, an [int64], is negative) and an input shape of
    known rank, [RaggedTensorFromVariantShapeFn] fails: a rank, which is
    not negative, never equals the negative rank asked for.  The context
    comes back unchanged. *)
Theorem FromVariant_negative_difference (c : InferenceContext) (irr orr : Z)
    (dims : list DimensionHandle) :
  attrs c !! "input_ragged_rank" = Some (AttrInt irr) ->
  attrs c !! "output_ragged_rank" = Some (AttrInt orr) ->
  inputs c !! 0%nat = Some (KnownRank dims) ->
  orr < irr ->
  Int64.in_range (orr - irr) ->
  RaggedTensorFromVariantShapeFn c =
    (Failed (InvalidArgument
               (RankMustBe (orr - irr) (Z.of_nat (length dims)))), c).
Proof.
  intros Hirr Horr Hs Hlt Hrange.
  rewrite (FromVariant_run c irr orr Hirr Horr), Hs.
  unfold Int64.sub. rewrite Int64_wrap_id by exact Hrange.
  rewrite (proj2 (Z.eqb_neq _ _)) by lia. reflexivity.
Qed.

Lemma FromVariant_negative_difference_witness :
  RaggedTensorFromVariantShapeFn
    (from_variant_node 3 1 [KnownRank [known 0 2; known 1 7]])
  = (Failed (InvalidArgument (RankMustBe (-2) 2)),
     from_variant_node 3 1 [KnownRank [known 0 2; known 1 7]]).
Proof.
  apply (FromVariant_negative_difference
           (from_variant_node 3 1 [KnownRank [known 0 2; known 1 7]])
           3 1 [known 0 2; known 1 7] eq_refl eq_refl eq_refl).
  - lia.
  - apply FromVariant_attrs_in_range.
    unfold FromVariant_attrs_registered, Int64.max_value. lia.
Defined.

(** ** All three functions *)

(** C9.  For each of the three shape functions, a call that fails has
    made no call of [set_output]: the recorded outputs are those it
    started with.  A call that succeeds has set each of the outputs its
    operator declares exactly once, and no other. *)
Theorem outputs_all_or_nothing (op : Op) (c : InferenceContext) :
  (forall (e : Error) (c' : InferenceContext),
      SetShapeFn op c = (Failed e, c') -> outputs c' = outputs c) /\
  (forall (n : Z) (c' : InferenceContext),
      num_outputs op c = Some n -> 0 < n ->
      SetShapeFn op c = (OK tt, c') ->
      exists new : list (Z * ShapeHandle),
        outputs c' = outputs c ++ new /\ exactly_once n new).
Proof.
  destruct op; simpl SetShapeFn; simpl num_outputs.
  - pose proof (ToSparse_all_or_nothing c) as Haon.
    unfold all_or_nothing in Haon. split.
    + intros e c' Hrun. rewrite Hrun in Haon. exact Haon.
    + intros n c' [= <-] _ Hrun. rewrite Hrun in Haon. exact Haon.
  - pose proof (ToVariant_all_or_nothing c) as Haon.
    unfold all_or_nothing in Haon. split.
    + intros e c' Hrun. rewrite Hrun in Haon. exact Haon.
    + intros n c' [= <-] _ Hrun. rewrite Hrun in Haon. exact Haon.
  - pose proof (FromVariant_all_or_nothing c) as Haon.
    unfold all_or_nothing in Haon. split.
    + intros e c' Hrun. rewrite Hrun in Haon. exact Haon.
    + intros n c' Hn Hpos Hrun. rewrite Hrun in Haon.
      destruct Haon as (new & Hout & Hnew). exists new. split; [exact Hout |].
      destruct (attr_int c "output_ragged_rank") as [r |]; [| discriminate Hn].
      injection Hn as <-. apply Hnew; [reflexivity | lia].
Qed.

Lemma outputs_all_or_nothing_witness :
  (SetShapeFn RaggedTensorToVariant
     (to_variant_node 2 true
        [UnknownRank; KnownRank [known 0 3; known 1 3]; KnownRank [known 2 7]])
   = (Failed (InvalidArgument (RankMustBe 1 2)),
      Context
        (attrs (to_variant_node 2 true []))
        [UnknownRank; KnownRank [known 0 3; known 1 3]; KnownRank [known 2 7]]
        [] 101) /\
   outputs
     (Context
        (attrs (to_variant_node 2 true []))
        [UnknownRank; KnownRank [known 0 3; known 1 3]; KnownRank [known 2 7]]
        [] 101) = []) /\
  (SetShapeFn RaggedTensorFromVariant
     (from_variant_node 1 3 [KnownRank [known 0 2; known 1 7]])
   = (OK tt,
      Context
        (attrs (from_variant_node 1 3 []))
        [KnownRank [known 0 2; known 1 7]]
        [(0, KnownRank [Dimension 100 None]);
         (1, KnownRank [Dimension 101 None]);
         (2, KnownRank [Dimension 102 None]);
         (3, UnknownShape)] 103) /\
   exactly_once 4
     [(0, KnownRank [Dimension 100 None]);
      (1, KnownRank [Dimension 101 None]);
      (2, KnownRank [Dimension 102 None]);
      (3, UnknownShape)]).
Proof.
  split.
  - assert (Hrun :
      SetShapeFn RaggedTensorToVariant
        (to_variant_node 2 true
           [UnknownRank; KnownRank [known 0 3; known 1 3];
            KnownRank [known 2 7]])
      = (Failed (InvalidArgument (RankMustBe 1 2)),
         Context
           (attrs (to_variant_node 2 true []))
           [UnknownRank; KnownRank [known 0 3; known 1 3];
            KnownRank [known 2 7]]
           [] 101)) by reflexivity.
    split; [exact Hrun |].
    exact (proj1 (outputs_all_or_nothing _ _) _ _ Hrun).
  - assert (Hrun :
      SetShapeFn RaggedTensorFromVariant
        (from_variant_node 1 3 [KnownRank [known 0 2; known 1 7]])
      = (OK tt,
         Context
           (attrs (from_variant_node 1 3 []))
           [KnownRank [known 0 2; known 1 7]]
           [(0, KnownRank [Dimension 100 None]);
            (1, KnownRank [Dimension 101 None]);
            (2, KnownRank [Dimension 102 None]);
            (3, UnknownShape)] 103)) by reflexivity.
    split; [exact Hrun |].
    destruct (proj2 (outputs_all_or_nothing RaggedTensorFromVariant
                       (from_variant_node 1 3
                          [KnownRank [known 0 2; known 1 7]]))
                4 _ eq_refl ltac:(lia) Hrun)
      as (new & Hout & Hnew).
    simpl in Hout. rewrite Hout. exact Hnew.
Defined.

(** * Further properties of the shape functions *)

(** ** The order of the checks *)

Lemma check_split_exact c i s :
  0 <= i -> inputs c !! Z.to_nat i = Some s ->
  exists c', same_node c c' /\
    if split_ok s then exists s', check_split i c = (OK s', c')
    else check_split i c =
           (Failed (InvalidArgument (RankMustBe 1 (default 0 (Rank s)))), c').
Proof.
  intros Hi Hs. unfold check_split.
  run_with (input_run _ _ _ Hi Hs).
  unfold bind. rewrite WithRank_1_run.
  destruct s as [| dims].
  - eexists. split; [| eexists; reflexivity]. repeat split.
  - destruct (split_ok (KnownRank dims));
      (exists c; split; [apply same_node_refl |]);
      [eexists; reflexivity | reflexivity].
Qed.

(** The loop stops at the first split it refuses, and reports that one. *)
Lemma check_splits_first_bad good :
  forall n i c dims rest,
    0 <= i ->
    drop (Z.to_nat i) (inputs c) = good ++ KnownRank dims :: rest ->
    forallb split_ok good = true ->
    length dims <> 1%nat ->
    (length good < n)%nat ->
    exists c', same_node c c' /\
      for_range n i check_split c =
        (Failed (InvalidArgument (RankMustBe 1 (Z.of_nat (length dims)))), c').
Proof.
  induction good as [| g good IH]; intros n i c dims rest Hi Hdrop Hgood Hdims Hn;
    (destruct n as [| n]; [simpl in Hn; lia |]).
  - assert (Hs : inputs c !! Z.to_nat i = Some (KnownRank dims)).
    { rewrite <- (Nat.add_0_r (Z.to_nat i)), <- lookup_drop, Hdrop.
      reflexivity. }
    destruct (check_split_exact c i _ Hi Hs) as (c1 & Hsame & Hrun).
    simpl split_ok in Hrun.
    rewrite bool_decide_eq_false_2 in Hrun by exact Hdims.
    exists c1. split; [exact Hsame |].
    simpl for_range. apply bind_Failed. exact Hrun.
  - assert (Hs : inputs c !! Z.to_nat i = Some g).
    { rewrite <- (Nat.add_0_r (Z.to_nat i)), <- lookup_drop, Hdrop.
      reflexivity. }
    simpl in Hgood. apply andb_true_iff in Hgood as (Hg & Hgood).
    destruct (check_split_exact c i _ Hi Hs) as (c1 & Hsame & Hrun).
    rewrite Hg in Hrun. destruct Hrun as (g' & Hrun).
    destruct (IH n (i + 1) c1 dims rest) as (c2 & Hsame2 & Hrun2);
      [lia | | exact Hgood | exact Hdims | simpl in Hn; lia |].
    { destruct Hsame as (_ & -> & _).
      rewrite (drop_S _ _ _ Hs) in Hdrop.
      replace (Z.to_nat (i + 1)) with (S (Z.to_nat i)) by lia.
      simpl in Hdrop. injection Hdrop as Hdrop. exact Hdrop. }
    exists c2. split; [eapply same_node_trans; eassumption |].
    simpl for_range. run_with Hrun. exact Hrun2.
Qed.

(** X1.  Both ragged-to-* functions check the values input before any
    split: when the values input has a known rank below 1 (a scalar), the
    call fails with the values' error and the context unchanged, whatever
    the split inputs are. *)
Theorem values_checked_first (c : InferenceContext) (k : Z)
    (splits : list ShapeHandle) :
  attrs c !! "RAGGED_RANK" = Some (AttrInt k) ->
  inputs c = splits ++ [KnownRank []] ->
  Z.of_nat (length splits) = k ->
  (1 <= k ->
   RaggedTensorToSparseShapeFn c =
     (Failed (InvalidArgument (RankMustBeAtLeast 1 0)), c)) /\
  (forall b : bool,
      attrs c !! "batched_input" = Some (AttrBool b) ->
      RaggedTensorToVariantShapeFn c =
        (Failed (InvalidArgument (RankMustBeAtLeast 1 0)), c)).
Proof.
  intros Hk Hin Hlen. split.
  - intros Hk1. unfold RaggedTensorToSparseShapeFn.
    run_with (GetAttr_int64_run _ _ _ Hk).
    destruct (Z.ltb_spec k 1); [lia |].
    run_with (input_values_run _ _ _ _ Hin Hlen).
    reflexivity.
  - intros b Hb. unfold RaggedTensorToVariantShapeFn.
    run_with (GetAttr_int64_run _ _ _ Hk).
    run_with (GetAttr_bool_run _ _ _ Hb).
    run_with (input_values_run _ _ _ _ Hin Hlen).
    reflexivity.
Qed.

Lemma values_checked_first_witness :
  RaggedTensorToSparseShapeFn
    (to_variant_node 1 true [KnownRank [known 0 2; known 1 2]; KnownRank []])
  = (Failed (InvalidArgument (RankMustBeAtLeast 1 0)),
     to_variant_node 1 true [KnownRank [known 0 2; known 1 2]; KnownRank []]) /\
  RaggedTensorToVariantShapeFn
    (to_variant_node 1 true [KnownRank [known 0 2; known 1 2]; KnownRank []])
  = (Failed (InvalidArgument (RankMustBeAtLeast 1 0)),
     to_variant_node 1 true [KnownRank [known 0 2; known 1 2]; KnownRank []]).
Proof.
  pose proof (values_checked_first
                (to_variant_node 1 true
                   [KnownRank [known 0 2; known 1 2]; KnownRank []])
                1 [KnownRank [known 0 2; known 1 2]]
                eq_refl eq_refl eq_refl) as (Hsparse & Hvariant).
  split; [apply Hsparse; lia | apply (Hvariant true); reflexivity].
Defined.

(** X2.  The splits are checked in input order and the first one refused
    is the one reported: when the values pass their check, the splits
    before position [length good] have rank 1 or an unknown rank, and the
    split at that position has a known rank [r <> 1], both functions fail
    with "must be rank 1 but is rank r", whatever the later splits are,
    and record no output. *)
Theorem first_refused_split_reported (c : InferenceContext) (k : Z)
    (good : list ShapeHandle) (dims : list DimensionHandle)
    (later : list ShapeHandle) (values : ShapeHandle) :
  attrs c !! "RAGGED_RANK" = Some (AttrInt k) ->
  inputs c = (good ++ KnownRank dims :: later) ++ [values] ->
  Z.of_nat (length (good ++ KnownRank dims :: later)) = k ->
  forallb split_ok good = true ->
  length dims <> 1%nat ->
  values_ok values = true ->
  (exists c' : InferenceContext,
      RaggedTensorToSparseShapeFn c =
        (Failed (InvalidArgument (RankMustBe 1 (Z.of_nat (length dims)))), c') /\
      outputs c' = outputs c) /\
  (forall b : bool,
      attrs c !! "batched_input" = Some (AttrBool b) ->
      exists c' : InferenceContext,
        RaggedTensorToVariantShapeFn c =
          (Failed (InvalidArgument (RankMustBe 1 (Z.of_nat (length dims)))), c') /\
        outputs c' = outputs c).
Proof.
  intros Hk Hin Hlen Hgood Hdims Hvalues.
  assert (Hk1 : 1 <= k).
  { rewrite <- Hlen, length_app. simpl. lia. }
  destruct (check_splits_first_bad good (Z.to_nat k) 0 c dims (later ++ [values]))
    as (c1 & (_ & _ & Hout) & Hloop); try assumption; try lia.
  { rewrite Hin, <- app_assoc. reflexivity. }
  { rewrite length_app in Hlen. simpl in Hlen. lia. }
  split.
  - exists c1. split; [| exact Hout].
    unfold RaggedTensorToSparseShapeFn.
    run_with (GetAttr_int64_run _ _ _ Hk).
    destruct (Z.ltb_spec k 1); [lia |].
    run_with (input_values_run _ _ _ _ Hin Hlen).
    erewrite bind_OK by (rewrite WithRankAtLeast_run, Hvalues; reflexivity).
    apply bind_Failed. exact Hloop.
  - intros b Hb. exists c1. split; [| exact Hout].
    unfold RaggedTensorToVariantShapeFn.
    run_with (GetAttr_int64_run _ _ _ Hk).
    run_with (GetAttr_bool_run _ _ _ Hb).
    run_with (input_values_run _ _ _ _ Hin Hlen).
    erewrite bind_OK by (rewrite WithRankAtLeast_run, Hvalues; reflexivity).
    apply bind_Failed. exact Hloop.
Qed.

Lemma first_refused_split_reported_witness :
  (exists c' : InferenceContext,
      RaggedTensorToSparseShapeFn
        (to_variant_node 3 false
           [UnknownRank; KnownRank []; KnownRank [known 0 2; known 1 2];
            KnownRank [known 2 5]])
      = (Failed (InvalidArgument (RankMustBe 1 0)), c') /\
      outputs c' = []) /\
  (exists c' : InferenceContext,
      RaggedTensorToVariantShapeFn
        (to_variant_node 3 false
           [UnknownRank; KnownRank []; KnownRank [known 0 2; known 1 2];
            KnownRank [known 2 5]])
      = (Failed (InvalidArgument (RankMustBe 1 0)), c') /\
      outputs c' = []).
Proof.
  pose proof (first_refused_split_reported
                (to_variant_node 3 false
                   [UnknownRank; KnownRank [];
                    KnownRank [known 0 2; known 1 2]; KnownRank [known 2 5]])
                3 [UnknownRank] [] [KnownRank [known 0 2; known 1 2]]
                (KnownRank [known 2 5])
                eq_refl eq_refl eq_refl eq_refl) as H.
  destruct H as (Hsparse & Hvariant); [simpl; lia | reflexivity |].
  split; [exact Hsparse | exact (Hvariant false eq_refl)].
Defined.

(** ** When the ragged-to-* functions succeed *)

Lemma ToSparse_OK_checks c k splits values c' :
  attrs c !! "RAGGED_RANK" = Some (AttrInt k) ->
  inputs c = splits ++ [values] ->
  Z.of_nat (length splits) = k ->
  RaggedTensorToSparseShapeFn c = (OK tt, c') ->
  1 <= k /\ values_ok values = true /\ forallb split_ok splits = true.
Proof.
  intros Hk Hin Hlen Hrun.
  destruct (forallb split_ok splits && values_ok values) eqn:Hchecks.
  - apply andb_true_iff in Hchecks as (Hsplits & Hvalues).
    split; [| split; assumption].
    destruct (Z.ltb_spec k 1) as [Hlt | Hge]; [| exact Hge].
    unfold RaggedTensorToSparseShapeFn in Hrun.
    rewrite (bind_OK _ _ _ _ _ (GetAttr_int64_run _ _ _ Hk)) in Hrun.
    rewrite (proj2 (Z.ltb_lt _ _) Hlt) in Hrun. discriminate Hrun.
  - destruct (ToSparse_checks_fail c k _ _ Hk Hin Hlen Hchecks)
      as (e & c1 & Hfail & _).
    rewrite Hfail in Hrun. discriminate Hrun.
Qed.

Lemma ToVariant_OK_checks c k splits values c' :
  attrs c !! "RAGGED_RANK" = Some (AttrInt k) ->
  inputs c = splits ++ [values] ->
  Z.of_nat (length splits) = k ->
  RaggedTensorToVariantShapeFn c = (OK tt, c') ->
  values_ok values = true /\ forallb split_ok splits = true.
Proof.
  intros Hk Hin Hlen Hrun.
  destruct (forallb split_ok splits && values_ok values) eqn:Hchecks.
  - apply andb_true_iff in Hchecks as (Hsplits & Hvalues).
    split; assumption.
  - destruct (ToVariant_checks_fail c k _ _ Hk Hin Hlen Hchecks)
      as (e & c1 & Hfail & _).
    rewrite Hfail in Hrun. discriminate Hrun.
Qed.

(** X3.  [RaggedTensorToSparseShapeFn] succeeds exactly when
    [RAGGED_RANK >= 1], the values input has rank at least 1 or an unknown
    rank, and every split input has rank 1 or an unknown rank. *)
Theorem ToSparse_succeeds_iff (c : InferenceContext) (k : Z)
    (splits : list ShapeHandle) (values : ShapeHandle) :
  attrs c !! "RAGGED_RANK" = Some (AttrInt k) ->
  inputs c = splits ++ [values] ->
  Z.of_nat (length splits) = k ->
  (exists c' : InferenceContext, RaggedTensorToSparseShapeFn c = (OK tt, c'))
  <->
  1 <= k /\ values_ok values = true /\ forallb split_ok splits = true.
Proof.
  intros Hk Hin Hlen. split.
  - intros (c' & Hrun). exact (ToSparse_OK_checks c k _ _ c' Hk Hin Hlen Hrun).
  - intros (Hk1 & Hvalues & Hsplits).
    apply (ToSparse_checks_pass c k splits values); assumption.
Qed.

Lemma ToSparse_succeeds_iff_witness :
  (exists c' : InferenceContext,
      RaggedTensorToSparseShapeFn
        (to_sparse_node 2 [UnknownRank; KnownRank [known 0 4]; UnknownRank])
      = (OK tt, c'))
  <->
  1 <= 2 /\ values_ok UnknownRank = true /\
  forallb split_ok [UnknownRank; KnownRank [known 0 4]] = true.
Proof.
  exact (ToSparse_succeeds_iff
           (to_sparse_node 2 [UnknownRank; KnownRank [known 0 4]; UnknownRank])
           2 [UnknownRank; KnownRank [known 0 4]] UnknownRank
           eq_refl eq_refl eq_refl).
Defined.

(** X4.  For [RAGGED_RANK >= 1], [RaggedTensorToVariantShapeFn] succeeds
    exactly when the values and the splits pass their rank checks and, if
    [batched_input] is true, the length of the first split is unknown or
    at least 1. *)
Theorem ToVariant_succeeds_iff (c : InferenceContext) (k : Z) (b : bool)
    (first : ShapeHandle) (rest : list ShapeHandle) (values : ShapeHandle) :
  attrs c !! "RAGGED_RANK" = Some (AttrInt k) ->
  attrs c !! "batched_input" = Some (AttrBool b) ->
  inputs c = (first :: rest) ++ [values] ->
  Z.of_nat (length (first :: rest)) = k ->
  (exists c' : InferenceContext, RaggedTensorToVariantShapeFn c = (OK tt, c'))
  <->
  values_ok values = true /\ forallb split_ok (first :: rest) = true /\
  (b = true -> rows_ok first = true).
Proof.
  intros Hk Hb Hin Hlen.
  destruct (forallb split_ok (first :: rest) && values_ok values) eqn:Hchecks.
  2:{ split.
      - intros (c' & Hrun).
        destruct (ToVariant_OK_checks c k _ _ c' Hk Hin Hlen Hrun) as (Hv & Hs).
        rewrite Hv, Hs in Hchecks. discriminate Hchecks.
      - intros (Hv & Hs & _). rewrite Hv, Hs in Hchecks. discriminate Hchecks. }
  apply andb_true_iff in Hchecks as (Hsplits & Hvalues).
  destruct (ToVariant_checks_pass c k b _ _ Hk Hb Hin Hlen Hsplits Hvalues)
    as (c1 & (_ & Hin1 & _) & ->).
  assert (Hfirst : input 0 c1 = (OK first, c1)).
  { apply input_run; [lia |]. rewrite Hin1, Hin. reflexivity. }
  destruct b.
  2:{ split; [intros _; repeat split; [assumption .. | discriminate] |].
      intros _. eexists. reflexivity. }
  unfold bind at 1. run_with Hfirst.
  destruct first as [| [| l [| l' dims]]]; try discriminate Hsplits.
  - split; [intros _; repeat split; assumption |].
    intros _. eexists. reflexivity.
  - run_refl. unfold bind at 1, Subtract. simpl rows_ok.
    destruct (dim_value l) as [v |].
    + destruct (Z.ltb_spec v 1).
      * split; [intros (c' & Hrun); discriminate Hrun |].
        intros (_ & _ & Hrows). specialize (Hrows eq_refl).
        apply bool_decide_eq_true_1 in Hrows. lia.
      * split; [| intros _; eexists; reflexivity].
        intros _. repeat split; try assumption.
        intros _. apply bool_decide_eq_true_2. assumption.
    + split; [intros _; repeat split; assumption |].
      intros _. eexists. reflexivity.
Qed.

Lemma ToVariant_succeeds_iff_witness :
  (exists c' : InferenceContext,
      RaggedTensorToVariantShapeFn
        (to_variant_node 1 true [KnownRank [known 0 0]; UnknownRank])
      = (OK tt, c'))
  <->
  values_ok UnknownRank = true /\
  forallb split_ok [KnownRank [known 0 0]] = true /\
  (true = true -> rows_ok (KnownRank [known 0 0]) = true).
Proof.
  exact (ToVariant_succeeds_iff
           (to_variant_node 1 true [KnownRank [known 0 0]; UnknownRank])
           1 true (KnownRank [known 0 0]) [] UnknownRank
           eq_refl eq_refl eq_refl eq_refl).
Defined.

(** X5.  The two ragged-to-* functions validate alike: on the same node,
    with [RAGGED_RANK >= 1] and [batched_input = false],
    [RaggedTensorToSparseShapeFn] succeeds if and only if
    [RaggedTensorToVariantShapeFn] does. *)
Theorem unbatched_validation_parity (c : InferenceContext) (k : Z)
    (splits : list ShapeHandle) (values : ShapeHandle) :
  attrs c !! "RAGGED_RANK" = Some (AttrInt k) ->
  attrs c !! "batched_input" = Some (AttrBool false) ->
  inputs c = splits ++ [values] ->
  Z.of_nat (length splits) = k ->
  1 <= k ->
  (exists c' : InferenceContext, RaggedTensorToSparseShapeFn c = (OK tt, c'))
  <->
  (exists c' : InferenceContext, RaggedTensorToVariantShapeFn c = (OK tt, c')).
Proof.
  intros Hk Hb Hin Hlen Hk1. split; intros (c' & Hrun).
  - destruct (ToSparse_OK_checks c k _ _ c' Hk Hin Hlen Hrun)
      as (_ & Hvalues & Hsplits).
    destruct (ToVariant_checks_pass c k false _ _ Hk Hb Hin Hlen
                Hsplits Hvalues) as (c1 & _ & ->).
    eexists. reflexivity.
  - destruct (ToVariant_OK_checks c k _ _ c' Hk Hin Hlen Hrun)
      as (Hvalues & Hsplits).
    apply (ToSparse_checks_pass c k splits values); assumption.
Qed.

Lemma unbatched_validation_parity_witness :
  (exists c' : InferenceContext,
      RaggedTensorToSparseShapeFn
        (to_variant_node 1 false [UnknownRank; KnownRank [known 0 4]])
      = (OK tt, c'))
  <->
  (exists c' : InferenceContext,
      RaggedTensorToVariantShapeFn
        (to_variant_node 1 false [UnknownRank; KnownRank [known 0 4]])
      = (OK tt, c')).
Proof.
  apply (unbatched_validation_parity
           (to_variant_node 1 false [UnknownRank; KnownRank [known 0 4]])
           1 [UnknownRank] (KnownRank [known 0 4])
           eq_refl eq_refl eq_refl eq_refl).
  lia.
Defined.

(** ** Outputs for inputs of unknown rank *)

(** X6.  When the values input of [RaggedTensorToSparseShapeFn] has an
    unknown rank (and [RAGGED_RANK >= 1], the splits of rank 1 or unknown
    rank), the call succeeds with outputs [[N, D]], [[N]] and [[D]]: [N]
    and [D] are two different dimensions, both of unknown size, [N] the
    same in outputs 0 and 1 and [D] the same in outputs 0 and 2. *)
Theorem ToSparse_unknown_values (c : InferenceContext) (k : Z)
    (splits : list ShapeHandle) :
  attrs c !! "RAGGED_RANK" = Some (AttrInt k) ->
  1 <= k ->
  inputs c = splits ++ [UnknownRank] ->
  Z.of_nat (length splits) = k ->
  forallb split_ok splits = true ->
  exists (n dense : DimensionHandle) (c' : InferenceContext),
    RaggedTensorToSparseShapeFn c = (OK tt, c') /\
    outputs c' =
      outputs c ++ [(0, KnownRank [n; dense]); (1, KnownRank [n]);
                    (2, KnownRank [dense])] /\
    dim_value n = None /\ dim_value dense = None /\
    dim_id n <> dim_id dense.
Proof.
  intros Hk Hk1 Hin Hlen Hsplits.
  destruct (check_all_splits c k splits _ Hin Hlen) as (c1 & Hsame & Hloop).
  rewrite Hsplits in Hloop. destruct Hsame as (_ & _ & Hout).
  exists (Dimension (S (next_dim c1)) None), (Dimension (next_dim c1) None).
  eexists. split; [| split; [| repeat split]].
  - unfold RaggedTensorToSparseShapeFn.
    run_with (GetAttr_int64_run _ _ _ Hk).
    destruct (Z.ltb_spec k 1); [lia |].
    run_with (input_values_run _ _ _ _ Hin Hlen).
    run_refl. run_with Hloop.
    reflexivity.
  - simpl. rewrite Hout, <- !app_assoc. reflexivity.
  - simpl. lia.
Qed.

Lemma ToSparse_unknown_values_witness :
  exists (n dense : DimensionHandle) (c' : InferenceContext),
    RaggedTensorToSparseShapeFn
      (to_sparse_node 2 [KnownRank [known 0 3]; UnknownRank; UnknownRank])
    = (OK tt, c') /\
    outputs c' =
      [(0, KnownRank [n; dense]); (1, KnownRank [n]); (2, KnownRank [dense])] /\
    dim_value n = None /\ dim_value dense = None /\
    dim_id n <> dim_id dense.
Proof.
  apply (ToSparse_unknown_values
           (to_sparse_node 2 [KnownRank [known 0 3]; UnknownRank; UnknownRank])
           2 [KnownRank [known 0 3]; UnknownRank]
           eq_refl ltac:(lia) eq_refl eq_refl eq_refl).
Defined.

(** ** RaggedTensorFromVariant, continued *)

Lemma FromVariant_OK_outputs c irr orr c' :
  attrs c !! "input_ragged_rank" = Some (AttrInt irr) ->
  attrs c !! "output_ragged_rank" = Some (AttrInt orr) ->
  RaggedTensorFromVariantShapeFn c = (OK tt, c') ->
  outputs c' =
    outputs c ++ split_outputs (Z.to_nat orr) 0 (next_dim c)
              ++ [(orr, UnknownShape)].
Proof.
  intros Hirr Horr Hrun.
  rewrite (FromVariant_run c irr orr Hirr Horr) in Hrun.
  destruct (inputs c !! 0%nat) as [[| dims] |]; [| | discriminate Hrun].
  - injection Hrun as <-. reflexivity.
  - destruct (Z.of_nat (length dims) =? Int64.sub orr irr);
      [| discriminate Hrun].
    injection Hrun as <-. reflexivity.
Qed.

Lemma output_split_exact c' old r id i :
  outputs c' = old ++ split_outputs (Z.to_nat r) 0 id ++ [(r, UnknownShape)] ->
  0 <= i < r ->
  output c' i = Some (KnownRank [Dimension (id + Z.to_nat i) None]).
Proof.
  intros Hout Hi. unfold output.
  rewrite Hout, !calls_for_app, calls_for_split_outputs.
  rewrite bool_decide_eq_true_2 by lia.
  unfold calls_for at 2. rewrite filter_cons, filter_nil. simpl.
  destruct (decide (r = i)); [lia |].
  rewrite last_snoc. simpl. rewrite Z.sub_0_r. reflexivity.
Qed.

(** X7.  [RaggedTensorFromVariantShapeFn] validates nothing when the rank
    of its input is unknown: for any values of the two attributes,
    [output_ragged_rank < input_ragged_rank] included, the call succeeds
    and records [output_ragged_rank] split outputs, in index order,
    followed by the values output. *)
Theorem FromVariant_unknown_rank_unchecked (c : InferenceContext) (irr orr : Z) :
  attrs c !! "input_ragged_rank" = Some (AttrInt irr) ->
  attrs c !! "output_ragged_rank" = Some (AttrInt orr) ->
  inputs c !! 0%nat = Some UnknownRank ->
  exists c' : InferenceContext,
    RaggedTensorFromVariantShapeFn c = (OK tt, c') /\
    outputs c' =
      outputs c ++ split_outputs (Z.to_nat orr) 0 (next_dim c)
                ++ [(orr, UnknownShape)].
Proof.
  intros Hirr Horr Hs.
  rewrite (FromVariant_run c irr orr Hirr Horr), Hs.
  eexists. split; reflexivity.
Qed.

Lemma FromVariant_unknown_rank_unchecked_witness :
  exists c' : InferenceContext,
    RaggedTensorFromVariantShapeFn (from_variant_node 5 2 [UnknownRank])
    = (OK tt, c') /\
    outputs c' =
      [(0, KnownRank [Dimension 100 None]);
       (1, KnownRank [Dimension 101 None]);
       (2, UnknownShape)].
Proof.
  exact (FromVariant_unknown_rank_unchecked
           (from_variant_node 5 2 [UnknownRank]) 5 2
           eq_refl eq_refl eq_refl).
Defined.

(** X8.  Each split output of [RaggedTensorFromVariantShapeFn] gets an
    unknown dimension of its own: after a successful call, two different
    split outputs [i < j < output_ragged_rank] are vectors over two
    different dimensions. *)
Theorem FromVariant_split_dimensions_differ (c c' : InferenceContext)
    (irr r i j : Z) :
  attrs c !! "input_ragged_rank" = Some (AttrInt irr) ->
  attrs c !! "output_ragged_rank" = Some (AttrInt r) ->
  RaggedTensorFromVariantShapeFn c = (OK tt, c') ->
  0 <= i -> i < j -> j < r ->
  exists di dj : DimensionHandle,
    output c' i = Some (KnownRank [di]) /\
    output c' j = Some (KnownRank [dj]) /\
    dim_id di <> dim_id dj.
Proof.
  intros Hirr Horr Hrun Hi Hij Hj.
  pose proof (FromVariant_OK_outputs c irr r c' Hirr Horr Hrun) as Hout.
  eexists _, _. split; [| split].
  - apply (output_split_exact c' _ r _ i Hout). lia.
  - apply (output_split_exact c' _ r _ j Hout). lia.
  - simpl. lia.
Qed.

Lemma FromVariant_split_dimensions_differ_witness :
  exists di dj : DimensionHandle,
    output
      (Context (attrs (from_variant_node 1 3 []))
         [KnownRank [known 0 2; known 1 7]]
         [(0, KnownRank [Dimension 100 None]);
          (1, KnownRank [Dimension 101 None]);
          (2, KnownRank [Dimension 102 None]);
          (3, UnknownShape)] 103) 0 = Some (KnownRank [di]) /\
    output
      (Context (attrs (from_variant_node 1 3 []))
         [KnownRank [known 0 2; known 1 7]]
         [(0, KnownRank [Dimension 100 None]);
          (1, KnownRank [Dimension 101 None]);
          (2, KnownRank [Dimension 102 None]);
          (3, UnknownShape)] 103) 2 = Some (KnownRank [dj]) /\
    dim_id di <> dim_id dj.
Proof.
  apply (FromVariant_split_dimensions_differ
           (from_variant_node 1 3 [KnownRank [known 0 2; known 1 7]])
           _ 1 3 0 2 eq_refl eq_refl); [reflexivity | lia ..].
Defined.

(** ** Attributes are read first *)

(** X10.  Each shape function reads its attributes before it looks at any
    input: when one of them is absent, or has another type than the one it
    is read at, the call fails and returns the context unchanged, whatever
    the inputs are (even none). *)
Theorem missing_attribute_fails (op : Op) (c : InferenceContext) :
  has_attrs op c = false ->
  exists e : Error, SetShapeFn op c = (Failed e, c).
Proof.
  destruct op; unfold has_attrs, attr_int, attr_bool; simpl SetShapeFn;
    intros Hattrs.
  - unfold RaggedTensorToSparseShapeFn, bind at 1, GetAttr_int64.
    destruct (attrs c !! "RAGGED_RANK") as [[k | |] |];
      try (eexists; reflexivity).
    apply bool_decide_eq_false_1 in Hattrs. destruct Hattrs. eexists; reflexivity.
  - unfold RaggedTensorToVariantShapeFn, bind at 1, GetAttr_int64.
    destruct (attrs c !! "RAGGED_RANK") as [[k | |] |];
      try (eexists; reflexivity).
    unfold bind at 1, GetAttr_bool.
    destruct (attrs c !! "batched_input") as [[| b |] |];
      try (eexists; reflexivity).
    apply andb_false_iff in Hattrs as [Hattrs | Hattrs];
      apply bool_decide_eq_false_1 in Hattrs; destruct Hattrs;
      eexists; reflexivity.
  - unfold RaggedTensorFromVariantShapeFn, bind at 1, GetAttr_int64.
    destruct (attrs c !! "input_ragged_rank") as [[irr | |] |];
      try (eexists; reflexivity).
    unfold bind at 1.
    destruct (attrs c !! "output_ragged_rank") as [[orr | |] |];
      try (eexists; reflexivity).
    apply andb_false_iff in Hattrs as [Hattrs | Hattrs];
      apply bool_decide_eq_false_1 in Hattrs; destruct Hattrs;
      eexists; reflexivity.
Qed.

Lemma missing_attribute_fails_witness :
  exists e : Error,
    SetShapeFn RaggedTensorToVariant (to_sparse_node 1 [])
    = (Failed e, to_sparse_node 1 []).
Proof.
  exact (missing_attribute_fails RaggedTensorToVariant (to_sparse_node 1 [])
           eq_refl).
Defined.

(** ** RAGGED_RANK = 0 in RaggedTensorToVariant *)

(** X11.  [RaggedTensorToVariantShapeFn] has no guard on [RAGGED_RANK] of
    its own (unlike [RaggedTensorToSparseShapeFn]): with [RAGGED_RANK = 0]
    the only input is the values, no split is checked, and the call
    succeeds when the values pass their rank check; unbatched the output
    is the scalar shape, batched it is [[L-1]] for [L >= 1] the first
    dimension of the values, which [input(0)] then denotes. *)
Theorem ToVariant_ragged_rank_0 (c : InferenceContext) (b : bool)
    (values : ShapeHandle) :
  attrs c !! "RAGGED_RANK" = Some (AttrInt 0) ->
  attrs c !! "batched_input" = Some (AttrBool b) ->
  inputs c = [values] ->
  values_ok values = true ->
  (b = false ->
   exists c' : InferenceContext,
     RaggedTensorToVariantShapeFn c = (OK tt, c') /\
     outputs c' = outputs c ++ [(0, Scalar)]) /\
  (b = true ->
   forall (l : DimensionHandle) (ds : list DimensionHandle) (L : Z),
     values = KnownRank (l :: ds) -> dim_value l = Some L -> 1 <= L ->
     exists (rows : DimensionHandle) (c' : InferenceContext),
       RaggedTensorToVariantShapeFn c = (OK tt, c') /\
       outputs c' = outputs c ++ [(0, KnownRank [rows])] /\
       dim_value rows = Some (L - 1)).
Proof.
  intros Hk Hb Hin Hvalues.
  destruct (ToVariant_checks_pass c 0 b [] values Hk Hb Hin eq_refl eq_refl
              Hvalues) as (c1 & (_ & Hin1 & Hout1) & ->).
  split.
  - intros ->. eexists. split; [reflexivity |].
    simpl. rewrite Hout1. reflexivity.
  - intros -> l ds L -> Hl HL.
    assert (Hfirst : input 0 c1 = (OK (KnownRank (l :: ds)), c1)).
    { apply input_run; [lia |]. rewrite Hin1, Hin. reflexivity. }
    eexists _, _. split; [| split].
    + unfold bind at 1. run_with Hfirst. run_refl.
      erewrite bind_OK.
      2:{ unfold Subtract. rewrite Hl.
          destruct (Z.ltb_spec L 1); [lia | reflexivity]. }
      reflexivity.
    + simpl. rewrite Hout1. reflexivity.
    + reflexivity.
Qed.

Lemma ToVariant_ragged_rank_0_witness :
  (exists c' : InferenceContext,
      RaggedTensorToVariantShapeFn
        (to_variant_node 0 false [KnownRank [known 0 6; known 1 2]])
      = (OK tt, c') /\
      outputs c' = [(0, Scalar)]) /\
  (exists (rows : DimensionHandle) (c' : InferenceContext),
      RaggedTensorToVariantShapeFn
        (to_variant_node 0 true [KnownRank [known 0 6; known 1 2]])
      = (OK tt, c') /\
      outputs c' = [(0, KnownRank [rows])] /\
      dim_value rows = Some 5).
Proof.
  split.
  - apply (proj1 (ToVariant_ragged_rank_0
                    (to_variant_node 0 false [KnownRank [known 0 6; known 1 2]])
                    false (KnownRank [known 0 6; known 1 2])
                    eq_refl eq_refl eq_refl eq_refl)).
    reflexivity.
  - apply (proj2 (ToVariant_ragged_rank_0
                    (to_variant_node 0 true [KnownRank [known 0 6; known 1 2]])
                    true (KnownRank [known 0 6; known 1 2])
                    eq_refl eq_refl eq_refl eq_refl)
              eq_refl (known 0 6) [known 1 2] 6 eq_refl eq_refl).
    lia.
Defined.

(** ** When RaggedTensorFromVariant succeeds *)

(** X13.  [RaggedTensorFromVariantShapeFn] succeeds exactly when the rank
    of its input is unknown, or is known and equal to the [int64]
    difference [output_ragged_rank - input_ragged_rank]; the dimensions of
    the input play no part. *)
Theorem FromVariant_succeeds_iff (c : InferenceContext) (irr orr : Z)
    (s : ShapeHandle) :
  attrs c !! "input_ragged_rank" = Some (AttrInt irr) ->
  attrs c !! "output_ragged_rank" = Some (AttrInt orr) ->
  inputs c !! 0%nat = Some s ->
  (exists c' : InferenceContext,
      RaggedTensorFromVariantShapeFn c = (OK tt, c'))
  <->
  Rank s = None \/ Rank s = Some (Int64.sub orr irr).
Proof.
  intros Hirr Horr Hs.
  rewrite (FromVariant_run c irr orr Hirr Horr), Hs.
  destruct s as [| dims]; simpl.
  - split; [intros _; left; reflexivity | intros _; eexists; reflexivity].
  - destruct (Z.eqb_spec (Z.of_nat (length dims)) (Int64.sub orr irr))
      as [Heq | Hne].
    + split; [intros _; right; rewrite Heq; reflexivity |].
      intros _. eexists; reflexivity.
    + split; [intros (c' & Hrun); discriminate Hrun |].
      intros [Hnone | Hsome]; [discriminate Hnone |].
      injection Hsome as Hsome. contradiction.
Qed.

Lemma FromVariant_succeeds_iff_witness :
  (exists c' : InferenceContext,
      RaggedTensorFromVariantShapeFn
        (from_variant_node 0 2 [KnownRank [known 0 4; known 1 4]])
      = (OK tt, c'))
  <->
  Rank (KnownRank [known 0 4; known 1 4]) = None \/
  Rank (KnownRank [known 0 4; known 1 4]) = Some (Int64.sub 2 0).
Proof.
  exact (FromVariant_succeeds_iff
           (from_variant_node 0 2 [KnownRank [known 0 4; known 1 4]])
           0 2 (KnownRank [known 0 4; known 1 4]) eq_refl eq_refl eq_refl).
Defined.
